(** * KIO worker surface: Result values, default operations, legacy bridge

    A shallow embedding of [src/core/workerbase.h] and
    [src/core/workerbase.cpp]: the [WorkerResult] value, the virtual
    operations of [WorkerBase] with their default bodies, and
    [WorkerSlaveBaseBridge], which turns every returned [WorkerResult] into
    the notifications of the older calling convention.

    Integers of the C++ code ([int], [quint16], [KIO::filesize_t]) are [Z];
    no arithmetic is done on them here, so no wrap-around is written out.
    [QString], [QUrl] are [string]; [QByteArray] is a list of bytes;
    [MetaData] (a [QMap<QString, QString>]) is a [gmap string string].

    Further down: the override set of [HTTPProtocol]
    ([src/kioworkers/http/http.h]), [SessionData]
    ([src/core/sessiondata.cpp]), [KFileFilter] ([src/core/kfilefilter.cpp])
    and the filter list of [KFileFilterCombo]
    ([src/filewidgets/kfilefiltercombo.cpp]). *)

From Stdlib Require Import ZArith NArith List Ascii String Bool Lia.
From stdpp Require Import base option gmap strings pretty list fin_maps.

Local Open Scope Z_scope.

(** ** Value types *)

Abbreviation QString := string (only parsing).
Abbreviation QUrl := string (only parsing).
Abbreviation QByteArray := (list Byte.byte) (only parsing).
Abbreviation filesize_t := Z (only parsing).
Abbreviation JobFlags := Z (only parsing).
Abbreviation OpenMode := Z (only parsing).
Abbreviation QDateTime := Z (only parsing).
Abbreviation MetaData := (gmap string string) (only parsing).

(** [struct WorkerResult { bool success; int error; QString errorString; }] *)
Record WorkerResult := mkWorkerResult {
  success : bool;
  error : Z;
  errorString : QString;
}.

Module WorkerResult.

(** [WorkerResult::fail(int _error, const QString &_errorString)]:
    [return WorkerResult{false, _error, _errorString};] *)
Definition fail (_error : Z) (_errorString : QString) : WorkerResult :=
  mkWorkerResult false _error _errorString.

(** [WorkerResult::pass()]: [return WorkerResult{true, 0, QString()};] *)
Definition pass : WorkerResult := mkWorkerResult true 0 ""%string.

(** A value obtained through one of the two constructors. *)
Inductive constructed : WorkerResult -> Prop :=
| constructed_pass : constructed pass
| constructed_fail code msg : constructed (fail code msg).

End WorkerResult.

(** [KIO::AuthInfo], the fields the worker surface names. *)
Record AuthInfo := mkAuthInfo {
  url : QUrl;
  username : QString;
  password : QString;
  realmValue : QString;
  caption : QString;
  comment : QString;
  keepPassword : bool;
  verifyPath : bool;
}.

(** [KIO::UDSEntry]: an ordered sequence of (field id, value) attributes. *)
Abbreviation UDSEntry := (list (Z * QString)) (only parsing).
Abbreviation UDSEntryList := (list (list (Z * QString))) (only parsing).

(** The opcodes of [commands_p.h] that [workerbase.cpp] names. *)
Inductive Command :=
| CMD_CONNECT | CMD_GET | CMD_OPEN | CMD_READ | CMD_WRITE | CMD_SEEK
| CMD_TRUNCATE | CMD_CLOSE | CMD_PUT | CMD_STAT | CMD_MIMETYPE | CMD_LISTDIR
| CMD_MKDIR | CMD_RENAME | CMD_SYMLINK | CMD_CHMOD | CMD_CHOWN
| CMD_SETMODIFICATIONTIME | CMD_COPY | CMD_DEL | CMD_SETLINKDEST
| CMD_SPECIAL | CMD_MULTI_GET | CMD_SUBURL | CMD_FILESYSTEMFREESPACE.

(** What [workerbase.cpp] takes from headers that are not part of these
    sources ([commands_p.h], [global.h], [slavebase.h], [job_error]): the
    numeric value of each opcode and error code, the two [virtual_hook] ids
    of [SlaveBase], the formatter of the "unsupported action" message, and
    the matching rule of the credential store.  They are parameters of the
    whole development. *)
Class Globals := {
  cmd : Command -> Z;
  ERR_UNKNOWN : Z;
  ERR_UNSUPPORTED_ACTION : Z;
  ERR_FILE_ALREADY_EXIST : Z;
  ERR_DIR_ALREADY_EXIST : Z;
  ERR_USER_CANCELED : Z;
  ERR_COMMUNICATION_FAILURE : Z;
  GetFileSystemFreeSpace : Z;
  Truncate : Z;
  unsupportedActionErrorString : QString -> Z -> QString;
  credentialMatches : AuthInfo -> AuthInfo -> bool;
}.

(** ** Notifications *)

(** The signals a protocol implementation can send through the public
    members of [WorkerBase] ([data], [mimeType], [statEntry], ...). *)
Inductive WorkerSignal :=
| S_data (data : QByteArray)
| S_dataReq
| S_needSubUrlData
| S_slaveStatus (host : QString) (connected : bool)
| S_statEntry (entry : UDSEntry)
| S_listEntry (entry : UDSEntry)
| S_listEntries (entries : UDSEntryList)
| S_canResume
| S_totalSize (bytes : filesize_t)
| S_processedSize (bytes : filesize_t)
| S_position (pos : filesize_t)
| S_written (bytes : filesize_t)
| S_truncated (length : filesize_t)
| S_speed (bytes_per_second : Z)
| S_redirection (url : QUrl)
| S_errorPage
| S_mimeType (type : QString)
| S_warning (msg : QString)
| S_infoMessage (msg : QString).

(** Everything the worker process sends to the job. *)
Inductive Notification :=
| N_error (code : Z) (text : QString)
| N_finished
| N_connected
| N_opened
| N_signal (s : WorkerSignal)
| N_metaData (m : MetaData)
| N_passwordPrompt (info : AuthInfo) (errorMsg : QString).

(** The two terminal notifications of a command. *)
Definition terminal (n : Notification) : bool :=
  match n with
  | N_error _ _ | N_finished => true
  | _ => false
  end.

(** The answer of the application to a password prompt. *)
Inductive PromptAnswer :=
| Answer_NoError (filled : AuthInfo)
| Answer_UserCanceled
| Answer_CommunicationFailure.

(** ** Session state and its monad *)

(** The per-process state that [SlaveBase] owns: outgoing and incoming
    MetaData, the pending timeout, the credential store reached through the
    password server, and the answers the application will give to the
    prompts still to come. *)
Record Session := mkSession {
  mOutgoingMetaData : MetaData;
  mIncomingMetaData : MetaData;
  pendingTimeout : option (Z * QByteArray);
  credentialStore : list AuthInfo;
  promptAnswers : list PromptAnswer;
}.

(** A call on the session: next state, returned value, notifications sent
    during the call (oldest first). *)
Definition M (A : Type) : Type := Session -> A * Session * list Notification.

#[global] Instance M_ret : MRet M := fun A a s => (a, s, []).

#[global] Instance M_bind : MBind M := fun A B f m s =>
  let '(a, s1, out1) := m s in
  let '(b, s2, out2) := f a s1 in
  (b, s2, out1 ++ out2).

Definition emit (n : Notification) : M unit := fun s => (tt, s, [n]).
Definition gets {A} (f : Session -> A) : M A := fun s => (f s, s, []).
Definition modify (f : Session -> Session) : M unit := fun s => (tt, f s, []).

Definition value {A} (x : A * Session * list Notification) : A := x.1.1.
Definition state {A} (x : A * Session * list Notification) : Session := x.1.2.
Definition sent {A} (x : A * Session * list Notification) : list Notification := x.2.

Arguments value {A} !x /.
Arguments state {A} !x /.
Arguments sent {A} !x /.

Definition with_outgoing (m : MetaData) (s : Session) : Session :=
  mkSession m (mIncomingMetaData s) (pendingTimeout s) (credentialStore s) (promptAnswers s).
Definition with_timeout (t : option (Z * QByteArray)) (s : Session) : Session :=
  mkSession (mOutgoingMetaData s) (mIncomingMetaData s) t (credentialStore s) (promptAnswers s).
Definition with_answers (l : list PromptAnswer) (s : Session) : Session :=
  mkSession (mOutgoingMetaData s) (mIncomingMetaData s) (pendingTimeout s) (credentialStore s) l.

(** ** SlaveBase: the members the bridge inherits

    [slavebase.cpp] is not part of these sources; [workerbase.cpp] only
    forwards to it.  Each member below is written from the specification of
    the worker protocol. *)
Module SlaveBase.
Section SlaveBase.
Context `{Globals}.

(** Modelled from the spec: [SlaveBase::error], missing from the sources;
    sends the terminal "error" notification carrying {errorCode, message}. *)
Definition error (_errid : Z) (_text : QString) : M unit := emit (N_error _errid _text).

(** Modelled from the spec: [SlaveBase::finished], missing from the
    sources; sends the terminal "finished" notification. *)
Definition finished : M unit := emit N_finished.

(** Modelled from the spec: [SlaveBase::connected] and [SlaveBase::opened],
    missing from the sources; the non-terminal answers to CONNECT and OPEN. *)
Definition connected : M unit := emit N_connected.
Definition opened : M unit := emit N_opened.

(** Modelled from the spec: the message and info signals of [SlaveBase]
    ([data], [mimeType], [statEntry], ...), missing from the sources; each
    sends its notification and nothing else. *)
Definition signal (sig : WorkerSignal) : M unit := emit (N_signal sig).

(** Modelled from the spec: [SlaveBase::setMetaData], missing from the
    sources; the outgoing MetaData accumulates key/value pairs. *)
Definition setMetaData (key value : QString) : M unit :=
  modify (fun s => with_outgoing (<[key := value]> (mOutgoingMetaData s)) s).

(** Modelled from the spec: [SlaveBase::metaData] and [hasMetaData],
    missing from the sources; read-only queries of the incoming MetaData. *)
Definition metaData (key : QString) : M QString :=
  gets (fun s => default ""%string (mIncomingMetaData s !! key)).
Definition hasMetaData (key : QString) : M bool :=
  gets (fun s => bool_decide (is_Some (mIncomingMetaData s !! key))).

(** Modelled from the spec: [SlaveBase::sendAndKeepMetaData], missing from
    the sources; the "flush and keep" variant sends the buffered pairs
    without clearing.  With nothing buffered there is nothing to send. *)
Definition sendAndKeepMetaData : M unit := fun s =>
  if decide (mOutgoingMetaData s = ∅) then (tt, s, [])
  else (tt, s, [N_metaData (mOutgoingMetaData s)]).

(** Modelled from the spec: [SlaveBase::sendMetaData], missing from the
    sources; a normal flush sends and clears the buffer. *)
Definition sendMetaData : M unit :=
  sendAndKeepMetaData ;; modify (with_outgoing ∅).

(** Modelled from the spec: [SlaveBase::setTimeoutSpecialCommand], missing
    from the sources; arms the single pending timeout, replacing any
    previous one; a negative value disarms it. *)
Definition setTimeoutSpecialCommand (timeout : Z) (data : QByteArray) : M unit :=
  modify (with_timeout (if timeout <? 0 then None else Some (timeout, data))).

(** [info] filled with the credentials of a cached [entry]. *)
Definition fillFrom (info entry : AuthInfo) : AuthInfo :=
  mkAuthInfo (url info) (username entry) (password entry) (realmValue info)
             (caption info) (comment info) (keepPassword entry) (verifyPath info).

(** Modelled from the spec: [SlaveBase::checkCachedAuthentication], missing
    from the sources; a pure lookup against the credential store that never
    prompts; returns whether a match was found and fills [info] if so.  The
    [AuthInfo &] argument is returned next to the result. *)
Definition checkCachedAuthentication (info : AuthInfo) : M (bool * AuthInfo) :=
  store ← gets credentialStore;
  match List.find (credentialMatches info) store with
  | Some entry => mret (true, fillFrom info entry)
  | None => mret (false, info)
  end.

(** The next answer of the application; none left: the channel is gone. *)
Definition awaitAnswer : M PromptAnswer := fun s =>
  match promptAnswers s with
  | [] => (Answer_CommunicationFailure, s, [])
  | a :: rest => (a, with_answers rest s, [])
  end.

(** Modelled from the spec: [SlaveBase::openPasswordDialogV2], missing from
    the sources; one synchronous round trip to the application/user, whose
    answer is an ErrorKind in {NoError, UserCanceled, CommunicationFailure}.
    [info] is replaced only when the answer is NoError. *)
Definition openPasswordDialogV2 (info : AuthInfo) (errorMsg : QString) : M (Z * AuthInfo) :=
  emit (N_passwordPrompt info errorMsg) ;;
  answer ← awaitAnswer;
  match answer with
  | Answer_NoError filled => mret (0, filled)
  | Answer_UserCanceled => mret (ERR_USER_CANCELED, info)
  | Answer_CommunicationFailure => mret (ERR_COMMUNICATION_FAILURE, info)
  end.

End SlaveBase.
End SlaveBase.

(** ** WorkerBase *)

(** The body of a virtual member as a protocol implementation writes it: a
    computation whose only effects are calls of the non-virtual members of
    [WorkerBase].  ([d], and with it the bridge, is private to [WorkerBase];
    a subclass cannot reach [error] or [finished].)  The signals are one
    constructor, [Do_signal]; a body that calls another virtual of its own
    object is written with that body in place of the call. *)
Inductive Prog (A : Type) : Type :=
| Ret (a : A)
| Do_signal (sig : WorkerSignal) (k : Prog A)
| Do_setMetaData (key value : QString) (k : Prog A)
| Do_metaData (key : QString) (k : QString -> Prog A)
| Do_hasMetaData (key : QString) (k : bool -> Prog A)
| Do_sendMetaData (k : Prog A)
| Do_sendAndKeepMetaData (k : Prog A)
| Do_setTimeoutSpecialCommand (timeout : Z) (data : QByteArray) (k : Prog A)
| Do_checkCachedAuthentication (info : AuthInfo) (k : bool * AuthInfo -> Prog A)
| Do_openPasswordDialog (info : AuthInfo) (errorMsg : QString) (k : Z * AuthInfo -> Prog A).

Arguments Ret {A} a.
Arguments Do_signal {A} sig k.
Arguments Do_setMetaData {A} key value k.
Arguments Do_metaData {A} key k.
Arguments Do_hasMetaData {A} key k.
Arguments Do_sendMetaData {A} k.
Arguments Do_sendAndKeepMetaData {A} k.
Arguments Do_setTimeoutSpecialCommand {A} timeout data k.
Arguments Do_checkCachedAuthentication {A} info k.
Arguments Do_openPasswordDialog {A} info errorMsg k.

(** The pointee of the [void *data] of [virtual_hook], as each of the two
    [static_cast]s of the bridge reads it. *)
Record VoidPtr := mkVoidPtr {
  as_QUrl : QUrl;
  as_filesize : filesize_t;
}.

(** A concrete worker: the protocol name given to the constructor and, for
    each virtual member of [WorkerBase], the overriding body if the subclass
    has one. *)
Record Worker := mkWorker {
  protocolName : QString;
  o_setHost : option (QString -> Z -> QString -> QString -> Prog unit);
  o_setSubUrl : option (QUrl -> Prog WorkerResult);
  o_openConnection : option (Prog WorkerResult);
  o_closeConnection : option (Prog unit);
  o_get : option (QUrl -> Prog WorkerResult);
  o_open : option (QUrl -> OpenMode -> Prog WorkerResult);
  o_read : option (filesize_t -> Prog WorkerResult);
  o_write : option (QByteArray -> Prog WorkerResult);
  o_seek : option (filesize_t -> Prog WorkerResult);
  o_truncate : option (filesize_t -> Prog WorkerResult);
  o_close : option (Prog WorkerResult);
  o_put : option (QUrl -> Z -> JobFlags -> Prog WorkerResult);
  o_stat : option (QUrl -> Prog WorkerResult);
  o_mimetype : option (QUrl -> Prog WorkerResult);
  o_listDir : option (QUrl -> Prog WorkerResult);
  o_mkdir : option (QUrl -> Z -> Prog WorkerResult);
  o_rename : option (QUrl -> QUrl -> JobFlags -> Prog WorkerResult);
  o_symlink : option (QString -> QUrl -> JobFlags -> Prog WorkerResult);
  o_chmod : option (QUrl -> Z -> Prog WorkerResult);
  o_chown : option (QUrl -> QString -> QString -> Prog WorkerResult);
  o_setModificationTime : option (QUrl -> QDateTime -> Prog WorkerResult);
  o_copy : option (QUrl -> QUrl -> Z -> JobFlags -> Prog WorkerResult);
  o_del : option (QUrl -> bool -> Prog WorkerResult);
  o_setLinkDest : option (QUrl -> QString -> Prog WorkerResult);
  o_special : option (QByteArray -> Prog WorkerResult);
  o_multiGet : option (QByteArray -> Prog WorkerResult);
  o_fileSystemFreeSpace : option (QUrl -> Prog WorkerResult);
  o_slave_status : option (Prog unit);
  o_virtual_hook : option (Z -> VoidPtr -> Prog WorkerResult);
}.

Module WorkerBase.
Section WorkerBase.
Context `{Globals}.

(** *** Non-virtual members: each forwards to the bridge ([d->bridge.f(...)]) *)

Definition setMetaData (key value : QString) : M unit := SlaveBase.setMetaData key value.
Definition metaData (key : QString) : M QString := SlaveBase.metaData key.
Definition hasMetaData (key : QString) : M bool := SlaveBase.hasMetaData key.
Definition sendMetaData : M unit := SlaveBase.sendMetaData.
Definition sendAndKeepMetaData : M unit := SlaveBase.sendAndKeepMetaData.
Definition setTimeoutSpecialCommand (timeout : Z) (data : QByteArray) : M unit :=
  SlaveBase.setTimeoutSpecialCommand timeout data.
Definition checkCachedAuthentication (info : AuthInfo) : M (bool * AuthInfo) :=
  SlaveBase.checkCachedAuthentication info.
(** [return d->bridge.openPasswordDialogV2(info, errorMsg);] *)
Definition openPasswordDialog (info : AuthInfo) (errorMsg : QString) : M (Z * AuthInfo) :=
  SlaveBase.openPasswordDialogV2 info errorMsg.

(** Running a body on the session. *)
Fixpoint run {A} (p : Prog A) : M A :=
  match p with
  | Ret a => mret a
  | Do_signal sig k => SlaveBase.signal sig ;; run k
  | Do_setMetaData key value k => setMetaData key value ;; run k
  | Do_metaData key k => v ← metaData key; run (k v)
  | Do_hasMetaData key k => b ← hasMetaData key; run (k b)
  | Do_sendMetaData k => sendMetaData ;; run k
  | Do_sendAndKeepMetaData k => sendAndKeepMetaData ;; run k
  | Do_setTimeoutSpecialCommand timeout data k => setTimeoutSpecialCommand timeout data ;; run k
  | Do_checkCachedAuthentication info k => r ← checkCachedAuthentication info; run (k r)
  | Do_openPasswordDialog info errorMsg k => r ← openPasswordDialog info errorMsg; run (k r)
  end.

(** *** Virtual members: the bodies of the base class

    [self] is the object the member is called on; [v_f self] is the
    virtual call [self->f(...)], which runs the override when there is one
    and the base body otherwise. *)

(** [fail(ERR_UNSUPPORTED_ACTION, unsupportedActionErrorString(d->protocolName(), c))] *)
Definition unsupported (self : Worker) (c : Z) : Prog WorkerResult :=
  Ret (WorkerResult.fail ERR_UNSUPPORTED_ACTION
         (unsupportedActionErrorString (protocolName self) c)).

Definition setHost (self : Worker) (host : QString) (port : Z) (user pass : QString) : Prog unit :=
  Ret tt.
Definition openConnection (self : Worker) : Prog WorkerResult :=
  unsupported self (cmd CMD_CONNECT).
Definition closeConnection (self : Worker) : Prog unit := Ret tt.
Definition stat (self : Worker) (_ : QUrl) : Prog WorkerResult :=
  unsupported self (cmd CMD_STAT).
Definition put (self : Worker) (_ : QUrl) (_ : Z) (_ : JobFlags) : Prog WorkerResult :=
  unsupported self (cmd CMD_PUT).
Definition special (self : Worker) (_ : QByteArray) : Prog WorkerResult :=
  unsupported self (cmd CMD_SPECIAL).
Definition listDir (self : Worker) (_ : QUrl) : Prog WorkerResult :=
  unsupported self (cmd CMD_LISTDIR).
Definition get (self : Worker) (_ : QUrl) : Prog WorkerResult :=
  unsupported self (cmd CMD_GET).
Definition open (self : Worker) (_ : QUrl) (_ : OpenMode) : Prog WorkerResult :=
  unsupported self (cmd CMD_OPEN).
Definition read (self : Worker) (_ : filesize_t) : Prog WorkerResult :=
  unsupported self (cmd CMD_READ).
Definition write (self : Worker) (_ : QByteArray) : Prog WorkerResult :=
  unsupported self (cmd CMD_WRITE).
Definition seek (self : Worker) (_ : filesize_t) : Prog WorkerResult :=
  unsupported self (cmd CMD_SEEK).
Definition truncate (self : Worker) (_ : filesize_t) : Prog WorkerResult :=
  unsupported self (cmd CMD_TRUNCATE).
Definition close (self : Worker) : Prog WorkerResult :=
  unsupported self (cmd CMD_CLOSE).

Definition v_get (self : Worker) : QUrl -> Prog WorkerResult :=
  default (get self) (o_get self).

(** [WorkerBase::mimetype]: [return get(url);], a virtual call. *)
Definition mimetype (self : Worker) (url : QUrl) : Prog WorkerResult :=
  v_get self url.

Definition rename (self : Worker) (_ _ : QUrl) (_ : JobFlags) : Prog WorkerResult :=
  unsupported self (cmd CMD_RENAME).
Definition symlink (self : Worker) (_ : QString) (_ : QUrl) (_ : JobFlags) : Prog WorkerResult :=
  unsupported self (cmd CMD_SYMLINK).
Definition copy (self : Worker) (_ _ : QUrl) (_ : Z) (_ : JobFlags) : Prog WorkerResult :=
  unsupported self (cmd CMD_COPY).
Definition del (self : Worker) (_ : QUrl) (_ : bool) : Prog WorkerResult :=
  unsupported self (cmd CMD_DEL).
Definition setLinkDest (self : Worker) (_ : QUrl) (_ : QString) : Prog WorkerResult :=
  unsupported self (cmd CMD_SETLINKDEST).
Definition mkdir (self : Worker) (_ : QUrl) (_ : Z) : Prog WorkerResult :=
  unsupported self (cmd CMD_MKDIR).
Definition chmod (self : Worker) (_ : QUrl) (_ : Z) : Prog WorkerResult :=
  unsupported self (cmd CMD_CHMOD).
Definition setModificationTime (self : Worker) (_ : QUrl) (_ : QDateTime) : Prog WorkerResult :=
  unsupported self (cmd CMD_SETMODIFICATIONTIME).
Definition chown (self : Worker) (_ : QUrl) (_ _ : QString) : Prog WorkerResult :=
  unsupported self (cmd CMD_CHOWN).
Definition setSubUrl (self : Worker) (_ : QUrl) : Prog WorkerResult :=
  unsupported self (cmd CMD_SUBURL).
Definition multiGet (self : Worker) (_ : QByteArray) : Prog WorkerResult :=
  unsupported self (cmd CMD_MULTI_GET).
Definition fileSystemFreeSpace (self : Worker) (_ : QUrl) : Prog WorkerResult :=
  unsupported self (cmd CMD_FILESYSTEMFREESPACE).
(** [WorkerBase::slave_status]: [slaveStatus(QString(), false);] *)
Definition slave_status (self : Worker) : Prog unit :=
  Do_signal (S_slaveStatus ""%string false) (Ret tt).
(** [WorkerBase::virtual_hook]: the id itself is given to the formatter. *)
Definition virtual_hook (self : Worker) (id : Z) (_ : VoidPtr) : Prog WorkerResult :=
  unsupported self id.

(** *** Virtual calls *)

Definition v_setHost (self : Worker) := default (setHost self) (o_setHost self).
Definition v_setSubUrl (self : Worker) := default (setSubUrl self) (o_setSubUrl self).
Definition v_openConnection (self : Worker) := default (openConnection self) (o_openConnection self).
Definition v_closeConnection (self : Worker) := default (closeConnection self) (o_closeConnection self).
Definition v_open (self : Worker) := default (open self) (o_open self).
Definition v_read (self : Worker) := default (read self) (o_read self).
Definition v_write (self : Worker) := default (write self) (o_write self).
Definition v_seek (self : Worker) := default (seek self) (o_seek self).
Definition v_truncate (self : Worker) := default (truncate self) (o_truncate self).
Definition v_close (self : Worker) := default (close self) (o_close self).
Definition v_put (self : Worker) := default (put self) (o_put self).
Definition v_stat (self : Worker) := default (stat self) (o_stat self).
Definition v_mimetype (self : Worker) := default (mimetype self) (o_mimetype self).
Definition v_listDir (self : Worker) := default (listDir self) (o_listDir self).
Definition v_mkdir (self : Worker) := default (mkdir self) (o_mkdir self).
Definition v_rename (self : Worker) := default (rename self) (o_rename self).
Definition v_symlink (self : Worker) := default (symlink self) (o_symlink self).
Definition v_chmod (self : Worker) := default (chmod self) (o_chmod self).
Definition v_chown (self : Worker) := default (chown self) (o_chown self).
Definition v_setModificationTime (self : Worker) :=
  default (setModificationTime self) (o_setModificationTime self).
Definition v_copy (self : Worker) := default (copy self) (o_copy self).
Definition v_del (self : Worker) := default (del self) (o_del self).
Definition v_setLinkDest (self : Worker) := default (setLinkDest self) (o_setLinkDest self).
Definition v_special (self : Worker) := default (special self) (o_special self).
Definition v_multiGet (self : Worker) := default (multiGet self) (o_multiGet self).
Definition v_fileSystemFreeSpace (self : Worker) :=
  default (fileSystemFreeSpace self) (o_fileSystemFreeSpace self).
Definition v_slave_status (self : Worker) := default (slave_status self) (o_slave_status self).
Definition v_virtual_hook (self : Worker) := default (virtual_hook self) (o_virtual_hook self).

End WorkerBase.
End WorkerBase.

(** ** WorkerSlaveBaseBridge

    Overrides every virtual of [SlaveBase], calls the member of [base] with
    the same name and turns the returned [WorkerResult] into signals. *)
Module WorkerSlaveBaseBridge.
Section WorkerSlaveBaseBridge.
Context `{Globals}.
Import WorkerBase.

Definition finalize (result : WorkerResult) : M unit :=
  if negb (success result) then SlaveBase.error (error result) (errorString result)
  else SlaveBase.finished.

Definition maybeError (result : WorkerResult) : M unit :=
  if negb (success result) then SlaveBase.error (error result) (errorString result)
  else mret tt.

(** [WorkerBase *base] *)
Variable base : Worker.

Definition setHost (host : QString) (port : Z) (user pass : QString) : M unit :=
  run (v_setHost base host port user pass).

Definition setSubUrl (url : QUrl) : M unit :=
  result ← run (v_setSubUrl base url); finalize result.

Definition openConnection : M unit :=
  result ← run (v_openConnection base);
  if negb (success result) then SlaveBase.error (error result) (errorString result)
  else SlaveBase.connected.

Definition closeConnection : M unit := run (v_closeConnection base).

Definition get (url : QUrl) : M unit :=
  result ← run (v_get base url); finalize result.

Definition open (url : QUrl) (mode : OpenMode) : M unit :=
  result ← run (v_open base url mode);
  if negb (success result) then SlaveBase.error (error result) (errorString result)
  else SlaveBase.opened.

Definition read (size : filesize_t) : M unit :=
  result ← run (v_read base size); maybeError result.

Definition write (data : QByteArray) : M unit :=
  result ← run (v_write base data); maybeError result.

Definition seek (offset : filesize_t) : M unit :=
  result ← run (v_seek base offset); maybeError result.

Definition close : M unit :=
  result ← run (v_close base); finalize result.

Definition put (url : QUrl) (permissions : Z) (flags : JobFlags) : M unit :=
  result ← run (v_put base url permissions flags); finalize result.

Definition stat (url : QUrl) : M unit :=
  result ← run (v_stat base url); finalize result.

Definition mimetype (url : QUrl) : M unit :=
  result ← run (v_mimetype base url); finalize result.

Definition listDir (url : QUrl) : M unit :=
  result ← run (v_listDir base url); finalize result.

Definition mkdir (url : QUrl) (permissions : Z) : M unit :=
  result ← run (v_mkdir base url permissions); finalize result.

Definition rename (src dest : QUrl) (flags : JobFlags) : M unit :=
  result ← run (v_rename base src dest flags); finalize result.

Definition symlink (target : QString) (dest : QUrl) (flags : JobFlags) : M unit :=
  result ← run (v_symlink base target dest flags); finalize result.

Definition chmod (url : QUrl) (permissions : Z) : M unit :=
  result ← run (v_chmod base url permissions); finalize result.

Definition chown (url : QUrl) (owner group : QString) : M unit :=
  result ← run (v_chown base url owner group); finalize result.

Definition setModificationTime (url : QUrl) (mtime : QDateTime) : M unit :=
  result ← run (v_setModificationTime base url mtime); finalize result.

Definition copy (src dest : QUrl) (permissions : Z) (flags : JobFlags) : M unit :=
  result ← run (v_copy base src dest permissions flags); finalize result.

Definition del (url : QUrl) (isfile : bool) : M unit :=
  result ← run (v_del base url isfile); finalize result.

Definition setLinkDest (url : QUrl) (target : QString) : M unit :=
  result ← run (v_setLinkDest base url target); finalize result.

Definition special (data : QByteArray) : M unit :=
  result ← run (v_special base data); maybeError result.

Definition multiGet (data : QByteArray) : M unit :=
  result ← run (v_multiGet base data); finalize result.

Definition slave_status : M unit := run (v_slave_status base).

(** [switch (id)]: the [GetFileSystemFreeSpace] case returns, the
    [Truncate] case breaks, and after the switch the hook of [base] is
    called for every id that did not return. *)
Definition virtual_hook (id : Z) (data : VoidPtr) : M unit :=
  if id =? GetFileSystemFreeSpace then
    result ← run (v_fileSystemFreeSpace base (as_QUrl data)); finalize result
  else
    (if id =? Truncate then
       result ← run (v_truncate base (as_filesize data)); maybeError result
     else mret tt) ;;
    result ← run (v_virtual_hook base id data); maybeError result.

End WorkerSlaveBaseBridge.
End WorkerSlaveBaseBridge.

(** ** The operation surface as one enumeration *)

(** One Result-returning operation of the surface with its arguments. *)
Inductive Call :=
| Call_openConnection
| Call_get (url : QUrl)
| Call_open (url : QUrl) (mode : OpenMode)
| Call_read (size : filesize_t)
| Call_write (data : QByteArray)
| Call_seek (offset : filesize_t)
| Call_truncate (size : filesize_t)
| Call_close
| Call_put (url : QUrl) (permissions : Z) (flags : JobFlags)
| Call_stat (url : QUrl)
| Call_mimetype (url : QUrl)
| Call_listDir (url : QUrl)
| Call_mkdir (url : QUrl) (permissions : Z)
| Call_rename (src dest : QUrl) (flags : JobFlags)
| Call_symlink (target : QString) (dest : QUrl) (flags : JobFlags)
| Call_chmod (url : QUrl) (permissions : Z)
| Call_chown (url : QUrl) (owner group : QString)
| Call_setModificationTime (url : QUrl) (mtime : QDateTime)
| Call_copy (src dest : QUrl) (permissions : Z) (flags : JobFlags)
| Call_del (url : QUrl) (isfile : bool)
| Call_setLinkDest (url : QUrl) (target : QString)
| Call_setSubUrl (url : QUrl)
| Call_special (data : QByteArray)
| Call_multiGet (data : QByteArray)
| Call_fileSystemFreeSpace (url : QUrl).

(** The opcode of the command that carries the operation. *)
Definition opcode (c : Call) : Command :=
  match c with
  | Call_openConnection => CMD_CONNECT
  | Call_get _ => CMD_GET
  | Call_open _ _ => CMD_OPEN
  | Call_read _ => CMD_READ
  | Call_write _ => CMD_WRITE
  | Call_seek _ => CMD_SEEK
  | Call_truncate _ => CMD_TRUNCATE
  | Call_close => CMD_CLOSE
  | Call_put _ _ _ => CMD_PUT
  | Call_stat _ => CMD_STAT
  | Call_mimetype _ => CMD_MIMETYPE
  | Call_listDir _ => CMD_LISTDIR
  | Call_mkdir _ _ => CMD_MKDIR
  | Call_rename _ _ _ => CMD_RENAME
  | Call_symlink _ _ _ => CMD_SYMLINK
  | Call_chmod _ _ => CMD_CHMOD
  | Call_chown _ _ _ => CMD_CHOWN
  | Call_setModificationTime _ _ => CMD_SETMODIFICATIONTIME
  | Call_copy _ _ _ _ => CMD_COPY
  | Call_del _ _ => CMD_DEL
  | Call_setLinkDest _ _ => CMD_SETLINKDEST
  | Call_setSubUrl _ => CMD_SUBURL
  | Call_special _ => CMD_SPECIAL
  | Call_multiGet _ => CMD_MULTI_GET
  | Call_fileSystemFreeSpace _ => CMD_FILESYSTEMFREESPACE
  end.

(** Whether the worker overrides the operation. *)
Definition overridden (w : Worker) (c : Call) : bool :=
  match c with
  | Call_openConnection => bool_decide (is_Some (o_openConnection w))
  | Call_get _ => bool_decide (is_Some (o_get w))
  | Call_open _ _ => bool_decide (is_Some (o_open w))
  | Call_read _ => bool_decide (is_Some (o_read w))
  | Call_write _ => bool_decide (is_Some (o_write w))
  | Call_seek _ => bool_decide (is_Some (o_seek w))
  | Call_truncate _ => bool_decide (is_Some (o_truncate w))
  | Call_close => bool_decide (is_Some (o_close w))
  | Call_put _ _ _ => bool_decide (is_Some (o_put w))
  | Call_stat _ => bool_decide (is_Some (o_stat w))
  | Call_mimetype _ => bool_decide (is_Some (o_mimetype w))
  | Call_listDir _ => bool_decide (is_Some (o_listDir w))
  | Call_mkdir _ _ => bool_decide (is_Some (o_mkdir w))
  | Call_rename _ _ _ => bool_decide (is_Some (o_rename w))
  | Call_symlink _ _ _ => bool_decide (is_Some (o_symlink w))
  | Call_chmod _ _ => bool_decide (is_Some (o_chmod w))
  | Call_chown _ _ _ => bool_decide (is_Some (o_chown w))
  | Call_setModificationTime _ _ => bool_decide (is_Some (o_setModificationTime w))
  | Call_copy _ _ _ _ => bool_decide (is_Some (o_copy w))
  | Call_del _ _ => bool_decide (is_Some (o_del w))
  | Call_setLinkDest _ _ => bool_decide (is_Some (o_setLinkDest w))
  | Call_setSubUrl _ => bool_decide (is_Some (o_setSubUrl w))
  | Call_special _ => bool_decide (is_Some (o_special w))
  | Call_multiGet _ => bool_decide (is_Some (o_multiGet w))
  | Call_fileSystemFreeSpace _ => bool_decide (is_Some (o_fileSystemFreeSpace w))
  end.

Section Surface.
Context `{Globals}.

(** The virtual call [base->f(args)] of an operation. *)
Definition invoke (base : Worker) (c : Call) : Prog WorkerResult :=
  match c with
  | Call_openConnection => WorkerBase.v_openConnection base
  | Call_get url => WorkerBase.v_get base url
  | Call_open url mode => WorkerBase.v_open base url mode
  | Call_read size => WorkerBase.v_read base size
  | Call_write data => WorkerBase.v_write base data
  | Call_seek offset => WorkerBase.v_seek base offset
  | Call_truncate size => WorkerBase.v_truncate base size
  | Call_close => WorkerBase.v_close base
  | Call_put url permissions flags => WorkerBase.v_put base url permissions flags
  | Call_stat url => WorkerBase.v_stat base url
  | Call_mimetype url => WorkerBase.v_mimetype base url
  | Call_listDir url => WorkerBase.v_listDir base url
  | Call_mkdir url permissions => WorkerBase.v_mkdir base url permissions
  | Call_rename src dest flags => WorkerBase.v_rename base src dest flags
  | Call_symlink target dest flags => WorkerBase.v_symlink base target dest flags
  | Call_chmod url permissions => WorkerBase.v_chmod base url permissions
  | Call_chown url owner group => WorkerBase.v_chown base url owner group
  | Call_setModificationTime url mtime => WorkerBase.v_setModificationTime base url mtime
  | Call_copy src dest permissions flags => WorkerBase.v_copy base src dest permissions flags
  | Call_del url isfile => WorkerBase.v_del base url isfile
  | Call_setLinkDest url target => WorkerBase.v_setLinkDest base url target
  | Call_setSubUrl url => WorkerBase.v_setSubUrl base url
  | Call_special data => WorkerBase.v_special base data
  | Call_multiGet data => WorkerBase.v_multiGet base data
  | Call_fileSystemFreeSpace url => WorkerBase.v_fileSystemFreeSpace base url
  end.

(** Modelled from the spec: the dispatch of one decoded command
    ([SlaveBase::dispatch], missing from the sources) invokes the single
    matching member of the bridge; the two verbs added after the opcode
    enumeration was frozen go through [virtual_hook] with their id. *)
Definition dispatch (base : Worker) (c : Call) : M unit :=
  match c with
  | Call_openConnection => WorkerSlaveBaseBridge.openConnection base
  | Call_get url => WorkerSlaveBaseBridge.get base url
  | Call_open url mode => WorkerSlaveBaseBridge.open base url mode
  | Call_read size => WorkerSlaveBaseBridge.read base size
  | Call_write data => WorkerSlaveBaseBridge.write base data
  | Call_seek offset => WorkerSlaveBaseBridge.seek base offset
  | Call_truncate size =>
      WorkerSlaveBaseBridge.virtual_hook base Truncate (mkVoidPtr ""%string size)
  | Call_close => WorkerSlaveBaseBridge.close base
  | Call_put url permissions flags => WorkerSlaveBaseBridge.put base url permissions flags
  | Call_stat url => WorkerSlaveBaseBridge.stat base url
  | Call_mimetype url => WorkerSlaveBaseBridge.mimetype base url
  | Call_listDir url => WorkerSlaveBaseBridge.listDir base url
  | Call_mkdir url permissions => WorkerSlaveBaseBridge.mkdir base url permissions
  | Call_rename src dest flags => WorkerSlaveBaseBridge.rename base src dest flags
  | Call_symlink target dest flags => WorkerSlaveBaseBridge.symlink base target dest flags
  | Call_chmod url permissions => WorkerSlaveBaseBridge.chmod base url permissions
  | Call_chown url owner group => WorkerSlaveBaseBridge.chown base url owner group
  | Call_setModificationTime url mtime =>
      WorkerSlaveBaseBridge.setModificationTime base url mtime
  | Call_copy src dest permissions flags =>
      WorkerSlaveBaseBridge.copy base src dest permissions flags
  | Call_del url isfile => WorkerSlaveBaseBridge.del base url isfile
  | Call_setLinkDest url target => WorkerSlaveBaseBridge.setLinkDest base url target
  | Call_setSubUrl url => WorkerSlaveBaseBridge.setSubUrl base url
  | Call_special data => WorkerSlaveBaseBridge.special base data
  | Call_multiGet data => WorkerSlaveBaseBridge.multiGet base data
  | Call_fileSystemFreeSpace url =>
      WorkerSlaveBaseBridge.virtual_hook base GetFileSystemFreeSpace (mkVoidPtr url 0)
  end.

(** Modelled from the spec: the dispatcher on expiry of the pending
    timeout (in [SlaveBase::dispatchLoop], missing from the sources)
    synthesizes a [special] command carrying the stored payload,
    indistinguishable downstream from one sent by the application. *)
Definition timeoutExpired (base : Worker) : M unit :=
  pending ← gets pendingTimeout;
  match pending with
  | Some (_, payload) =>
      modify (with_timeout None) ;; WorkerSlaveBaseBridge.special base payload
  | None => mret tt
  end.

(** A sequence of [setTimeoutSpecialCommand] calls, oldest first. *)
Fixpoint armAll (calls : list (Z * QByteArray)) : M unit :=
  match calls with
  | [] => mret tt
  | (timeout, data) :: rest =>
      WorkerBase.setTimeoutSpecialCommand timeout data ;; armAll rest
  end.

(** A sequence of [setMetaData] calls, oldest first. *)
Fixpoint setAll (pairs : list (QString * QString)) : M unit :=
  match pairs with
  | [] => mret tt
  | (key, value) :: rest => WorkerBase.setMetaData key value ;; setAll rest
  end.

(** How the caller of [rename] or [copy] goes on after the Result. *)
Inductive Reaction :=
| Done
| Fallback (steps : list Command)
| Failed (code : Z) (text : QString).

(** The composite strategy of a verb: copy+delete for rename, get+put for
    copy. *)
Definition composite (verb : Command) : option (list Command) :=
  match verb with
  | CMD_RENAME => Some [CMD_COPY; CMD_DEL]
  | CMD_COPY => Some [CMD_GET; CMD_PUT]
  | _ => None
  end.

(** Modelled from the spec: the reaction of the job to the Result of
    [rename] or [copy] (the job layer is missing from the sources):
    Unsupported-Action is the negotiation signal to retry as the composite
    strategy; every other code is terminal. *)
Definition reaction (verb : Command) (r : WorkerResult) : Reaction :=
  if success r then Done
  else match composite verb with
       | Some steps =>
           if error r =? ERR_UNSUPPORTED_ACTION then Fallback steps
           else Failed (error r) (errorString r)
       | None => Failed (error r) (errorString r)
       end.

End Surface.

(** How the bridge closes an operation, by the helper its member uses. *)
Inductive Completion :=
| Conclusive     (* finalize: finished or error *)
| ErrorOnly      (* maybeError: error or nothing *)
| Connects       (* openConnection: connected or error *)
| Opens.         (* open: opened or error *)

(** The members of the bridge by the way they close; [truncate], which is
    reached through [virtual_hook] only, is not classified. *)
Definition completion (c : Call) : option Completion :=
  match c with
  | Call_openConnection => Some Connects
  | Call_open _ _ => Some Opens
  | Call_read _ | Call_write _ | Call_seek _ | Call_special _ => Some ErrorOnly
  | Call_truncate _ => None
  | _ => Some Conclusive
  end.

(** What a member of that kind sends after the operation returned [r]. *)
Definition closing (k : Completion) (r : WorkerResult) : list Notification :=
  if success r then
    match k with
    | Conclusive => [N_finished]
    | ErrorOnly => []
    | Connects => [N_connected]
    | Opens => [N_opened]
    end
  else [N_error (error r) (errorString r)].

(** The terminal notifications among those sent. *)
Definition terminals (out : list Notification) : list Notification :=
  List.filter terminal out.

(** The terminal notification owed for a Result: "finished" on success,
    "error" with the Result's code and message on failure. *)
Definition owed (r : WorkerResult) : Notification :=
  if success r then N_finished else N_error (error r) (errorString r).

(** The Result of the uniform default: Unsupported-Action, with the message
    for the protocol of [w] and the opcode of [c]. *)
Definition unsupportedResult `{Globals} (w : Worker) (c : Call) : WorkerResult :=
  WorkerResult.fail ERR_UNSUPPORTED_ACTION
    (unsupportedActionErrorString (protocolName w) (cmd (opcode c))).

(** The Result of the default [get], as a body. *)
Definition unsupported_get `{Globals} (w : Worker) : Prog WorkerResult :=
  Ret (WorkerResult.fail ERR_UNSUPPORTED_ACTION
         (unsupportedActionErrorString (protocolName w) (cmd CMD_GET))).

Create HintDb virtuals.

#[global] Hint Unfold
  WorkerBase.v_setSubUrl WorkerBase.v_openConnection WorkerBase.v_get
  WorkerBase.v_open WorkerBase.v_read WorkerBase.v_write WorkerBase.v_seek
  WorkerBase.v_truncate WorkerBase.v_close WorkerBase.v_put WorkerBase.v_stat
  WorkerBase.v_mimetype WorkerBase.v_listDir WorkerBase.v_mkdir
  WorkerBase.v_rename WorkerBase.v_symlink WorkerBase.v_chmod WorkerBase.v_chown
  WorkerBase.v_setModificationTime WorkerBase.v_copy WorkerBase.v_del
  WorkerBase.v_setLinkDest WorkerBase.v_special WorkerBase.v_multiGet
  WorkerBase.v_fileSystemFreeSpace WorkerBase.v_virtual_hook : virtuals.

(** ** Concrete values used to run the definitions *)

(** One assignment of the parameters. *)
Definition sample_cmd (c : Command) : Z :=
  match c with
  | CMD_CONNECT => 1 | CMD_GET => 2 | CMD_OPEN => 3 | CMD_READ => 4
  | CMD_WRITE => 5 | CMD_SEEK => 6 | CMD_TRUNCATE => 7 | CMD_CLOSE => 8
  | CMD_PUT => 9 | CMD_STAT => 10 | CMD_MIMETYPE => 11 | CMD_LISTDIR => 12
  | CMD_MKDIR => 13 | CMD_RENAME => 14 | CMD_SYMLINK => 15 | CMD_CHMOD => 16
  | CMD_CHOWN => 17 | CMD_SETMODIFICATIONTIME => 18 | CMD_COPY => 19
  | CMD_DEL => 20 | CMD_SETLINKDEST => 21 | CMD_SPECIAL => 22
  | CMD_MULTI_GET => 23 | CMD_SUBURL => 24 | CMD_FILESYSTEMFREESPACE => 25
  end.

Definition sample_globals : Globals := {|
  cmd := sample_cmd;
  ERR_UNKNOWN := 143;
  ERR_UNSUPPORTED_ACTION := 108;
  ERR_FILE_ALREADY_EXIST := 112;
  ERR_DIR_ALREADY_EXIST := 113;
  ERR_USER_CANCELED := 1;
  ERR_COMMUNICATION_FAILURE := 158;
  GetFileSystemFreeSpace := 1;
  Truncate := 2;
  unsupportedActionErrorString := fun protocol c =>
    ("Protocol " +:+ protocol +:+ " does not support action " +:+ pretty c)%string;
  credentialMatches := fun info entry =>
    String.eqb (url info) (url entry) && String.eqb (realmValue info) (realmValue entry);
|}.

(** A worker that overrides nothing. *)
Definition plainWorker (protocol : QString) : Worker :=
  mkWorker protocol None None None None None None None None None None
           None None None None None None None None None None
           None None None None None None None None None.

Definition override_get (f : QUrl -> Prog WorkerResult) (w : Worker) : Worker :=
  mkWorker (protocolName w) (o_setHost w) (o_setSubUrl w) (o_openConnection w)
    (o_closeConnection w) (Some f) (o_open w) (o_read w) (o_write w) (o_seek w)
    (o_truncate w) (o_close w) (o_put w) (o_stat w) (o_mimetype w) (o_listDir w)
    (o_mkdir w) (o_rename w) (o_symlink w) (o_chmod w) (o_chown w)
    (o_setModificationTime w) (o_copy w) (o_del w) (o_setLinkDest w) (o_special w)
    (o_multiGet w) (o_fileSystemFreeSpace w) (o_slave_status w) (o_virtual_hook w).

Definition override_read (f : filesize_t -> Prog WorkerResult) (w : Worker) : Worker :=
  mkWorker (protocolName w) (o_setHost w) (o_setSubUrl w) (o_openConnection w)
    (o_closeConnection w) (o_get w) (o_open w) (Some f) (o_write w) (o_seek w)
    (o_truncate w) (o_close w) (o_put w) (o_stat w) (o_mimetype w) (o_listDir w)
    (o_mkdir w) (o_rename w) (o_symlink w) (o_chmod w) (o_chown w)
    (o_setModificationTime w) (o_copy w) (o_del w) (o_setLinkDest w) (o_special w)
    (o_multiGet w) (o_fileSystemFreeSpace w) (o_slave_status w) (o_virtual_hook w).

Definition override_truncate (f : filesize_t -> Prog WorkerResult) (w : Worker) : Worker :=
  mkWorker (protocolName w) (o_setHost w) (o_setSubUrl w) (o_openConnection w)
    (o_closeConnection w) (o_get w) (o_open w) (o_read w) (o_write w) (o_seek w)
    (Some f) (o_close w) (o_put w) (o_stat w) (o_mimetype w) (o_listDir w)
    (o_mkdir w) (o_rename w) (o_symlink w) (o_chmod w) (o_chown w)
    (o_setModificationTime w) (o_copy w) (o_del w) (o_setLinkDest w) (o_special w)
    (o_multiGet w) (o_fileSystemFreeSpace w) (o_slave_status w) (o_virtual_hook w).

(** An idle session with nothing buffered. *)
Definition idle : Session := mkSession ∅ ∅ None [] [].

(** A worker whose [get] sends a MIME type, one chunk and the empty chunk. *)
Definition fileWorker : Worker :=
  override_get (fun _ =>
      Do_signal (S_mimeType "text/plain")
        (Do_signal (S_data [Byte.x68; Byte.x69])
           (Do_signal (S_data []) (Ret WorkerResult.pass))))
    (plainWorker "file").

(** A worker whose [read] sends the bytes read. *)
Definition readWorker : Worker :=
  override_read (fun _ => Do_signal (S_data [Byte.x68]) (Ret WorkerResult.pass))
    (plainWorker "file").

(** A worker whose [truncate] succeeds. *)
Definition truncWorker : Worker :=
  override_truncate (fun size => Do_signal (S_truncated size) (Ret WorkerResult.pass))
    (plainWorker "file").

(** ** SessionData ([src/core/sessiondata.cpp])

    The per-application defaults that are merged into the configuration
    MetaData of an http or webdav worker. *)
Module SessionData.

Definition isEmpty (s : QString) : bool :=
  match s with EmptyString => true | String _ _ => false end.

(** [QChar::toLower] on the Latin-1 range, which is all a byte string holds:
    A-Z and the accented capitals 0xC0-0xD6, 0xD8-0xDE move up by 0x20. *)
Definition toLower_char (c : ascii) : ascii :=
  let n := N_of_ascii c in
  if ((65 <=? n) && (n <=? 90) || (192 <=? n) && (n <=? 214)
      || (216 <=? n) && (n <=? 222))%N
  then ascii_of_N (n + 32) else c.

Fixpoint toLower (s : QString) : QString :=
  match s with
  | EmptyString => EmptyString
  | String c rest => String (toLower_char c) (toLower rest)
  end.

(** [s.startsWith(prefix, Qt::CaseInsensitive)] *)
Fixpoint startsWith_ci (prefix s : QString) : bool :=
  match prefix, s with
  | EmptyString, _ => true
  | String _ _, EmptyString => false
  | String a p, String b r =>
      Ascii.eqb (toLower_char a) (toLower_char b) && startsWith_ci p r
  end.

(** [class SessionData::SessionDataPrivate] *)
Record SessionDataPrivate := mkSessionDataPrivate {
  initDone : bool;
  useCookie : bool;
  charsets : QString;
  language : QString;
}.

(** [SessionDataPrivate()]: [useCookie = true; initDone = false;] *)
Definition SessionDataPrivate_new : SessionDataPrivate :=
  mkSessionDataPrivate false true ""%string ""%string.

(** What the calls that leave this file return: the [Cookies] entry of the
    group [Cookie Policy] of [kcookiejarrc] if it is set,
    [KProtocolManager::acceptLanguagesHeader()], the name of
    [QTextCodec::codecForLocale()], the generic cache location of
    [QStandardPaths], and [KProtocolManager::defaultUserAgent()]. *)
Record Environment := mkEnvironment {
  cookiesEntry : option bool;
  acceptLanguagesHeader : QString;
  codecForLocaleName : QString;
  genericCacheLocation : QString;
  defaultUserAgent : QString;
}.

(** The calls with an effect outside the object. *)
Inductive Effect :=
| KProtocolManager_reparseConfiguration
| QDir_mkpath (path : QString).

(** [SessionData::reset] *)
Definition reset (env : Environment) (d : SessionDataPrivate)
  : SessionDataPrivate * list Effect :=
  (mkSessionDataPrivate true
     (default true (cookiesEntry env))
     (toLower (codecForLocaleName env))
     (acceptLanguagesHeader env),
   [KProtocolManager_reparseConfiguration]).

(** [configData[key]] of a non-const [QMap]: a missing key is inserted with
    an empty value. *)
Definition subscript (key : QString) (configData : gmap string string)
  : QString * gmap string string :=
  match configData !! key with
  | Some v => (v, configData)
  | None => (""%string, <[key := ""%string]> configData)
  end.

(** [if (configData[key].isEmpty()) { configData[key] = value; }] *)
Definition setIfEmpty (key value : QString) (configData : gmap string string)
  : gmap string string :=
  let '(v, configData1) := subscript key configData in
  if isEmpty v then <[key := value]> configData1 else configData1.

Definition isHttpOrWebdav (proto : QString) : bool :=
  startsWith_ci "http" proto || startsWith_ci "webdav" proto.

(** [SessionData::configDataFor(configData, proto, host)]: the MetaData, the
    private data and the outside calls made, in order. *)
Definition configDataFor (env : Environment) (d : SessionDataPrivate)
    (configData : gmap string string) (proto host : QString)
  : gmap string string * SessionDataPrivate * list Effect :=
  if isHttpOrWebdav proto then
    let '(d1, eff1) := if negb (initDone d) then reset env d else (d, []) in
    let c1 := setIfEmpty "Cookies" (if useCookie d1 then "true" else "false")%string configData in
    let c2 := setIfEmpty "Languages" (language d1) c1 in
    let c3 := setIfEmpty "Charsets" (charsets d1) c2 in
    let '(v, c4) := subscript "CacheDir" c3 in
    let '(c5, eff2) :=
      if isEmpty v then
        let httpCacheDir := (genericCacheLocation env +:+ "/kio_http")%string in
        (<["CacheDir"%string := httpCacheDir]> c4, [QDir_mkpath httpCacheDir])
      else (c4, []) in
    let c6 := setIfEmpty "UserAgent" (defaultUserAgent env) c5 in
    (c6, d1, eff1 ++ eff2)
  else (configData, d, []).

End SessionData.

(** The value a key ends with: the one supplied unless it is missing or
    empty. *)
Definition merged (old : option QString) (fallback : QString) : QString :=
  match old with
  | Some v => if SessionData.isEmpty v then fallback else v
  | None => fallback
  end.

(** The five keys that [configDataFor] completes, with the value each gets
    when none was supplied. *)
Definition fallbackOf (env : SessionData.Environment)
    (d : SessionData.SessionDataPrivate) (key : QString) : option QString :=
  if String.eqb key "Cookies" then
    Some (if SessionData.useCookie d then "true" else "false")%string
  else if String.eqb key "Languages" then Some (SessionData.language d)
  else if String.eqb key "Charsets" then Some (SessionData.charsets d)
  else if String.eqb key "CacheDir" then
    Some (SessionData.genericCacheLocation env +:+ "/kio_http")%string
  else if String.eqb key "UserAgent" then Some (SessionData.defaultUserAgent env)
  else None.

(** The private data that a call for http or webdav works with. *)
Definition settled (env : SessionData.Environment) (d : SessionData.SessionDataPrivate)
  : SessionData.SessionDataPrivate :=
  if SessionData.initDone d then d else (SessionData.reset env d).1.

Definition sample_environment : SessionData.Environment :=
  SessionData.mkEnvironment None "en-US" "UTF-8" "/home/u/.cache" "Mozilla/5.0".

(** ** KFileFilter ([src/core/kfilefilter.cpp])

    The code indexes into its strings, so a [QString] is here the list of
    its characters and a [QStringList] a list of those. *)
Module KFileFilter.

Abbreviation QChars := (list ascii) (only parsing).

(** [s.indexOf(c)]: the first position of [c], or -1. *)
Fixpoint indexOf (c : ascii) (s : QChars) : Z :=
  match s with
  | [] => -1
  | a :: rest =>
      if Ascii.eqb a c then 0
      else let r := indexOf c rest in if r <? 0 then -1 else r + 1
  end.

(** Whether [pat] is a prefix of [s]. *)
Fixpoint startsWith (pat s : QChars) : bool :=
  match pat, s with
  | [], _ => true
  | _ :: _, [] => false
  | a :: p, b :: r => Ascii.eqb a b && startsWith p r
  end.

(** The first position at which [pat] occurs in [s]. *)
Fixpoint search (pat s : QChars) : option nat :=
  if startsWith pat s then Some 0%nat
  else match s with
       | [] => None
       | _ :: rest => S <$> search pat rest
       end.

(** [s.indexOf(pat, from)] for [from >= 0]: the first position at or after
    [from] at which [pat] occurs, or -1. *)
Definition indexOfFrom (pat s : QChars) (from : Z) : Z :=
  match search pat (drop (Z.to_nat from) s) with
  | Some i => from + Z.of_nat i
  | None => -1
  end.

(** [s[i]] *)
Definition at_ (s : QChars) (i : Z) : ascii := nth (Z.to_nat i) s zero.

(** [s.left(n)]: the whole string when [n] is negative or too large. *)
Definition left (n : Z) (s : QChars) : QChars :=
  if n <? 0 then s else take (Z.to_nat n) s.

(** [s.mid(pos)] for [pos >= 0]: empty when [pos] is beyond the end. *)
Definition mid (pos : Z) (s : QChars) : QChars := drop (Z.to_nat pos) s.

(** [s.remove(pos, n)] for [pos >= 0] *)
Definition remove (pos n : Z) (s : QChars) : QChars :=
  take (Z.to_nat pos) s ++ drop (Z.to_nat (pos + n)) s.

(** [s.split(sep)], keeping empty parts: never an empty list. *)
Fixpoint split (sep : ascii) (s : QChars) : list QChars :=
  match s with
  | [] => [[]]
  | c :: rest =>
      if Ascii.eqb c sep then [] :: split sep rest
      else match split sep rest with
           | [] => [[c]]
           | part :: parts => (c :: part) :: parts
           end
  end.

Definition isEmpty (s : QChars) : bool :=
  match s with [] => true | _ :: _ => false end.

(** [s.split(sep, Qt::SkipEmptyParts)] *)
Definition split_SkipEmptyParts (sep : ascii) (s : QChars) : list QChars :=
  List.filter (fun part => negb (isEmpty part)) (split sep s).

(** [list.join(sep)] *)
Fixpoint join (sep : ascii) (l : list QChars) : QChars :=
  match l with
  | [] => []
  | [part] => part
  | part :: rest => part ++ sep :: join sep rest
  end.

(** [class KFileFilterPrivate] *)
Record KFileFilter := mkKFileFilter {
  m_label : QChars;
  m_filePatterns : list QChars;
  m_mimePatterns : list QChars;
}.

Section WithMimeDatabase.

(** [QMimeDatabase().mimeTypeForName(name).comment()]: the MIME database is
    outside these sources. *)
Variable comment : QChars -> QChars.

(** [KFileFilter::KFileFilter()] *)
Definition KFileFilter_0 : KFileFilter := mkKFileFilter [] [] [].

(** [KFileFilter::KFileFilter(label, filePatterns, mimePatterns)] *)
Definition KFileFilter_3 (label : QChars) (filePatterns mimePatterns : list QChars)
  : KFileFilter :=
  if negb (isEmpty label) then mkKFileFilter label filePatterns mimePatterns
  else mkKFileFilter (join " " (filePatterns ++ List.map comment mimePatterns))
         filePatterns mimePatterns.

(** [KFileFilter::KFileFilter(mimeType)] *)
Definition KFileFilter_1 (mimeType : QChars) : KFileFilter :=
  mkKFileFilter (comment mimeType) [] [mimeType].

(** The loop
    [for (pos = 0; (pos = escapeRemoved.indexOf("\\/", pos)) != -1; ++pos)
       escapeRemoved.remove(pos, 1);]
    run for at most [fuel] rounds. *)
Fixpoint removeEscapes (fuel : nat) (pos : Z) (escapeRemoved : QChars) : QChars :=
  match fuel with
  | O => escapeRemoved
  | S fuel' =>
      let pos1 := indexOfFrom ["\"; "/"]%char escapeRemoved pos in
      if pos1 =? -1 then escapeRemoved
      else removeEscapes fuel' (pos1 + 1) (remove pos1 1 escapeRemoved)
  end.

(** The same loop with its exit made visible: the string when the test
    [!= -1] fails within [fuel] rounds, nothing when the rounds are used up
    before the loop is left. *)
Fixpoint removeEscapes_exit (fuel : nat) (pos : Z) (escapeRemoved : QChars)
  : option QChars :=
  match fuel with
  | O => None
  | S fuel' =>
      let pos1 := indexOfFrom ["\"; "/"]%char escapeRemoved pos in
      if pos1 =? -1 then Some escapeRemoved
      else removeEscapes_exit fuel' (pos1 + 1) (remove pos1 1 escapeRemoved)
  end.

(** One line of a pattern filter string: [patterns|label] or [patterns]. *)
Definition fromFilterLine (filter : QChars) : KFileFilter :=
  let separatorPos := indexOf "|" filter in
  if negb (separatorPos =? -1) then
    KFileFilter_3 (mid (separatorPos + 1) filter)
      (split " " (left separatorPos filter)) []
  else KFileFilter_3 [] (split " " filter) [].

(** [KFileFilter::fromFilterString].  The loop is given one round more than
    the string has characters. *)
Definition fromFilterString (filterString : QChars) : list KFileFilter :=
  let pos := indexOf "/" filterString in
  if (0 <? pos) && negb (Ascii.eqb (at_ filterString (pos - 1)) "\") then
    List.map KFileFilter_1 (split_SkipEmptyParts " " filterString)
  else
    let escapeRemoved := removeEscapes (S (length filterString)) 0 filterString in
    List.map fromFilterLine (split "010" escapeRemoved).

(** [KFileFilter::toFilterString] *)
Definition toFilterString (f : KFileFilter) : QChars :=
  if negb (match m_mimePatterns f with [] => true | _ => false end) then
    join " " (m_mimePatterns f)
  else if negb (isEmpty (m_label f)) then
    join " " (m_filePatterns f) ++ "|"%char :: m_label f
  else join " " (m_filePatterns f).

End WithMimeDatabase.

(** [KFileFilter::operator==] *)
Definition eqb (f other : KFileFilter) : bool :=
  bool_decide (m_label f = m_label other)
  && bool_decide (m_filePatterns f = m_filePatterns other)
  && bool_decide (m_mimePatterns f = m_mimePatterns other).

End KFileFilter.

(** What the loop of [fromFilterString] computes: each backslash that stands
    directly before a '/' is dropped, left to right. *)
Fixpoint unescape (s : list ascii) : list ascii :=
  match s with
  | [] => []
  | a :: rest =>
      match rest with
      | b :: rest' =>
          if Ascii.eqb a "\" && Ascii.eqb b "/" then b :: unescape rest'
          else a :: unescape rest
      | [] => [a]
      end
  end.

(** A MIME database for running the definitions. *)
Definition sample_comment (mimeType : list ascii) : list ascii :=
  list_ascii_of_string "Type " ++ mimeType.

(** A pattern filter that survives being written as a filter string: it has
    a label and at least one pattern, and none of the characters that the
    string format gives a meaning occurs where it would be read as such. *)
Definition writable (f : KFileFilter.KFileFilter) : Prop :=
  KFileFilter.m_mimePatterns f = [] /\
  KFileFilter.m_label f <> [] /\
  KFileFilter.m_filePatterns f <> [] /\
  ("/"%char ∉ KFileFilter.m_label f) /\
  ("010"%char ∉ KFileFilter.m_label f) /\
  Forall (fun pattern => (" "%char ∉ pattern) /\ ("|"%char ∉ pattern) /\
                         ("/"%char ∉ pattern) /\ ("010"%char ∉ pattern))
         (KFileFilter.m_filePatterns f).

(** ** KFileFilterCombo ([src/filewidgets/kfilefiltercombo.cpp])

    The filter list of the combo box.  The widget itself is the base class
    [KComboBox]; its members are taken as they are. *)
Module KFileFilterCombo.

(** The members of the base class that the code calls, on a state [Q] of the
    widget. *)
Class QComboBox (Q : Type) := {
  clear : Q -> Q;
  addItem : list ascii -> Q -> Q;
  setCurrentIndex : Z -> Q -> Q;
  currentText : Q -> list ascii;
  itemText : Z -> Q -> list ascii;
  currentIndex : Q -> Z;
}.

(** [class KFileFilterComboPrivate] *)
Record KFileFilterComboPrivate := mkKFileFilterComboPrivate {
  m_hasAllSupportedFiles : bool;
  m_isMimeFilter : bool;
  m_lastFilter : list ascii;
  m_defaultFilter : list ascii;
  m_filters : list KFileFilter.KFileFilter;
  m_allTypes : bool;
}.

Section WithWidget.
Context {Q : Type} `{QComboBox Q}.

(** The MIME database, as in [KFileFilter]. *)
Variable comment : list ascii -> list ascii.

(** [KFileFilterComboPrivate::slotFilterChanged], the slot that the
    constructor connects to [filterChanged]. *)
Definition slotFilterChanged (q : Q) (d : KFileFilterComboPrivate)
  : KFileFilterComboPrivate :=
  mkKFileFilterComboPrivate (m_hasAllSupportedFiles d) (m_isMimeFilter d)
    (currentText q) (m_defaultFilter d) (m_filters d) (m_allTypes d).

(** [KFileFilterCombo::setFilter] *)
Definition setFilter (filterString : list ascii) (q : Q) (d : KFileFilterComboPrivate)
  : Q * KFileFilterComboPrivate :=
  let q1 := clear q in
  let filters := KFileFilter.fromFilterString comment filterString in
  let filters1 :=
    if negb (match filters with [] => true | _ :: _ => false end) then filters
    else KFileFilter.fromFilterString comment (m_defaultFilter d) in
  let q2 := fold_left (fun q' filter => addItem (KFileFilter.m_label filter) q')
              filters1 q1 in
  (q2, mkKFileFilterComboPrivate false false (currentText q2) (m_defaultFilter d)
         filters1 (m_allTypes d)).

(** [QVector::value(i)]: the default-constructed value out of range. *)
Definition value (i : Z) (l : list KFileFilter.KFileFilter) : KFileFilter.KFileFilter :=
  if (0 <=? i) && (i <? Z.of_nat (length l))
  then nth (Z.to_nat i) l KFileFilter.KFileFilter_0
  else KFileFilter.KFileFilter_0.

(** [KFileFilterCombo::currentFilter] *)
Definition currentFilter (q : Q) (d : KFileFilterComboPrivate) : list ascii :=
  let f := currentText q in
  let unedited := bool_decide (f = itemText (currentIndex q) q) in
  let f1 :=
    if unedited then KFileFilter.toFilterString (value (currentIndex q) (m_filters d))
    else f in
  if unedited && (m_isMimeFilter d || (currentIndex q =? 0) && m_hasAllSupportedFiles d)
  then f1
  else
    let tab := KFileFilter.indexOf "|" f1 in
    if tab <? 0 then f1 else KFileFilter.left tab f1.

(** [KFileFilterCombo::filters] *)
Definition filters (d : KFileFilterComboPrivate) : list (list ascii) :=
  List.map KFileFilter.toFilterString (m_filters d).

(** [std::find_if] over the filters, as the distance from the beginning. *)
Fixpoint find_if (filterString : list ascii) (l : list KFileFilter.KFileFilter)
  : option nat :=
  match l with
  | [] => None
  | filter :: rest =>
      if bool_decide (filterString = KFileFilter.toFilterString filter) then Some 0%nat
      else S <$> find_if filterString rest
  end.

(** [KFileFilterCombo::setCurrentFilter]; [Q_EMIT filterChanged()] runs the
    slot of the object itself. *)
Definition setCurrentFilter (filterString : list ascii) (q : Q)
    (d : KFileFilterComboPrivate) : Q * KFileFilterComboPrivate :=
  let q1 :=
    match find_if filterString (m_filters d) with
    | None => setCurrentIndex (-1) q
    | Some i => setCurrentIndex (Z.of_nat i) q
    end in
  (q1, slotFilterChanged q1 d).

(** [setDefaultFilter], [defaultFilter], [isMimeFilter], [showsAllTypes] *)
Definition setDefaultFilter (filter : list ascii) (d : KFileFilterComboPrivate)
  : KFileFilterComboPrivate :=
  mkKFileFilterComboPrivate (m_hasAllSupportedFiles d) (m_isMimeFilter d)
    (m_lastFilter d) filter (m_filters d) (m_allTypes d).
Definition defaultFilter (d : KFileFilterComboPrivate) : list ascii := m_defaultFilter d.
Definition isMimeFilter (d : KFileFilterComboPrivate) : bool := m_isMimeFilter d.
Definition showsAllTypes (d : KFileFilterComboPrivate) : bool := m_allTypes d.

End WithWidget.
End KFileFilterCombo.

(** A widget for running the definitions: its entries, current index and
    edit text.  An index outside the entries is no entry: the index becomes
    -1 and there is no text. *)
Record SampleCombo := mkSampleCombo {
  entries : list (list ascii);
  index : Z;
  text : list ascii;
}.

Definition sample_combo_ops : KFileFilterCombo.QComboBox SampleCombo := {|
  KFileFilterCombo.clear := fun _ => mkSampleCombo [] (-1) [];
  KFileFilterCombo.addItem := fun item q =>
    match entries q with
    | [] => mkSampleCombo [item] 0 item
    | _ :: _ => mkSampleCombo (entries q ++ [item]) (index q) (text q)
    end;
  KFileFilterCombo.setCurrentIndex := fun i q =>
    if (0 <=? i) && (i <? Z.of_nat (length (entries q)))
    then mkSampleCombo (entries q) i (nth (Z.to_nat i) (entries q) [])
    else mkSampleCombo (entries q) (-1) [];
  KFileFilterCombo.currentText := text;
  KFileFilterCombo.itemText := fun i q =>
    if (0 <=? i) && (i <? Z.of_nat (length (entries q)))
    then nth (Z.to_nat i) (entries q) []
    else [];
  KFileFilterCombo.currentIndex := index;
|}.

Definition sample_filter : KFileFilter.KFileFilter :=
  KFileFilter.mkKFileFilter (list_ascii_of_string "Sources")
    [list_ascii_of_string "*.cpp"; list_ascii_of_string "*.h"] [].

Definition sample_combo : SampleCombo :=
  mkSampleCombo [list_ascii_of_string "Sources"] 0 (list_ascii_of_string "Sources").

Definition sample_private : KFileFilterCombo.KFileFilterComboPrivate :=
  KFileFilterCombo.mkKFileFilterComboPrivate false false
    (list_ascii_of_string "Sources") (list_ascii_of_string "*|All Files")
    [sample_filter] false.

(** The worker [w] with another [virtual_hook], or with none. *)
Definition with_virtual_hook (hook : option (Z -> VoidPtr -> Prog WorkerResult))
    (w : Worker) : Worker :=
  mkWorker (protocolName w) (o_setHost w) (o_setSubUrl w) (o_openConnection w)
    (o_closeConnection w) (o_get w) (o_open w) (o_read w) (o_write w) (o_seek w)
    (o_truncate w) (o_close w) (o_put w) (o_stat w) (o_mimetype w) (o_listDir w)
    (o_mkdir w) (o_rename w) (o_symlink w) (o_chmod w) (o_chown w)
    (o_setModificationTime w) (o_copy w) (o_del w) (o_setLinkDest w) (o_special w)
    (o_multiGet w) (o_fileSystemFreeSpace w) (o_slave_status w) hook.

(** A hook that sends a warning and succeeds. *)
Definition noisy_hook (id : Z) (data : VoidPtr) : Prog WorkerResult :=
  Do_signal (S_warning "hook") (Ret WorkerResult.pass).

(** ** HTTPProtocol ([src/kioworkers/http/http.h])

    The bodies of the members that [class HTTPProtocol] declares with
    [override]; they are defined outside these sources. *)
Record HTTPBodies := mkHTTPBodies {
  http_get : QUrl -> Prog WorkerResult;
  http_put : QUrl -> Z -> JobFlags -> Prog WorkerResult;
  http_mimetype : QUrl -> Prog WorkerResult;
  http_special : QByteArray -> Prog WorkerResult;
  http_stat : QUrl -> Prog WorkerResult;
  http_listDir : QUrl -> Prog WorkerResult;
  http_mkdir : QUrl -> Z -> Prog WorkerResult;
  http_rename : QUrl -> QUrl -> JobFlags -> Prog WorkerResult;
  http_copy : QUrl -> QUrl -> Z -> JobFlags -> Prog WorkerResult;
  http_del : QUrl -> bool -> Prog WorkerResult;
  http_fileSystemFreeSpace : QUrl -> Prog WorkerResult;
}.

(** [class HTTPProtocol : public KIO::WorkerBase]: the worker with exactly
    these eleven overrides. *)
Definition HTTPProtocol (protocol : QString) (b : HTTPBodies) : Worker := {|
  protocolName := protocol;
  o_setHost := None;
  o_setSubUrl := None;
  o_openConnection := None;
  o_closeConnection := None;
  o_get := Some (http_get b);
  o_open := None;
  o_read := None;
  o_write := None;
  o_seek := None;
  o_truncate := None;
  o_close := None;
  o_put := Some (http_put b);
  o_stat := Some (http_stat b);
  o_mimetype := Some (http_mimetype b);
  o_listDir := Some (http_listDir b);
  o_mkdir := Some (http_mkdir b);
  o_rename := Some (http_rename b);
  o_symlink := None;
  o_chmod := None;
  o_chown := None;
  o_setModificationTime := None;
  o_copy := Some (http_copy b);
  o_del := Some (http_del b);
  o_setLinkDest := None;
  o_special := Some (http_special b);
  o_multiGet := None;
  o_fileSystemFreeSpace := Some (http_fileSystemFreeSpace b);
  o_slave_status := None;
  o_virtual_hook := None;
|}.

(** The opcodes of the operations that [HTTPProtocol] leaves to the base
    class. *)
Definition http_unsupported : list Command :=
  [CMD_CONNECT; CMD_OPEN; CMD_READ; CMD_WRITE; CMD_SEEK; CMD_TRUNCATE; CMD_CLOSE;
   CMD_SYMLINK; CMD_CHMOD; CMD_CHOWN; CMD_SETMODIFICATIONTIME; CMD_SETLINKDEST;
   CMD_SUBURL; CMD_MULTI_GET].

(** Bodies that all succeed at once, for running the definitions. *)
Definition sample_http : HTTPBodies :=
  mkHTTPBodies (fun _ => Ret WorkerResult.pass) (fun _ _ _ => Ret WorkerResult.pass)
    (fun _ => Ret WorkerResult.pass) (fun _ => Ret WorkerResult.pass)
    (fun _ => Ret WorkerResult.pass) (fun _ => Ret WorkerResult.pass)
    (fun _ _ => Ret WorkerResult.pass) (fun _ _ _ => Ret WorkerResult.pass)
    (fun _ _ _ _ => Ret WorkerResult.pass) (fun _ _ => Ret WorkerResult.pass)
    (fun _ => Ret WorkerResult.pass).

(** * Properties *)

(** ** The session monad *)

Lemma bind_run {A B} (m : M A) (f : A -> M B) (s : Session) :
  (m ≫= f) s =
  (value (f (value (m s)) (state (m s))),
   state (f (value (m s)) (state (m s))),
   sent (m s) ++ sent (f (value (m s)) (state (m s)))).
Proof.
  unfold mbind, M_bind, value, state, sent.
  destruct (m s) as [[a s1] out1]; simpl.
  destruct (f a s1) as [[b s2] out2]; reflexivity.
Qed.

Lemma terminals_app (l1 l2 : list Notification) :
  terminals (l1 ++ l2) = terminals l1 ++ terminals l2.
Proof. unfold terminals. apply List.filter_app. Qed.

Ltac run_bind := rewrite !bind_run; simpl.

Section RunFacts.
Context `{Globals}.

Lemma sendAndKeepMetaData_sent (s : Session) :
  terminals (sent (SlaveBase.sendAndKeepMetaData s)) = [].
Proof.
  unfold SlaveBase.sendAndKeepMetaData. destruct (decide _); reflexivity.
Qed.

Lemma checkCachedAuthentication_run (info : AuthInfo) (s : Session) :
  state (SlaveBase.checkCachedAuthentication info s) = s /\
  sent (SlaveBase.checkCachedAuthentication info s) = [].
Proof.
  unfold SlaveBase.checkCachedAuthentication. run_bind.
  unfold gets; simpl.
  destruct (List.find _ _); split; reflexivity.
Qed.

Lemma openPasswordDialogV2_sent (info : AuthInfo) (errorMsg : QString) (s : Session) :
  sent (SlaveBase.openPasswordDialogV2 info errorMsg s) = [N_passwordPrompt info errorMsg].
Proof.
  unfold SlaveBase.openPasswordDialogV2. run_bind.
  unfold SlaveBase.awaitAnswer, emit; simpl.
  destruct (promptAnswers s) as [|[filled| |] rest]; reflexivity.
Qed.

(** A body never sends a terminal notification: the members it can call
    send signals, MetaData and prompts only. *)
Lemma run_no_terminal {A} (p : Prog A) (s : Session) :
  terminals (sent (WorkerBase.run p s)) = [].
Proof.
  revert s.
  induction p as [a|sig k IH|key v k IH|key k IH|key k IH|k IH|k IH|t d k IH
                  |info k IH|info msg k IH]; intros s; simpl.
  - reflexivity.
  - run_bind. apply IH.
  - run_bind. apply IH.
  - run_bind. apply IH.
  - run_bind. apply IH.
  - run_bind. rewrite terminals_app, IH, app_nil_r.
    unfold WorkerBase.sendMetaData, SlaveBase.sendMetaData. run_bind.
    rewrite terminals_app, sendAndKeepMetaData_sent. reflexivity.
  - run_bind. rewrite terminals_app, IH, app_nil_r.
    apply sendAndKeepMetaData_sent.
  - run_bind. apply IH.
  - run_bind. rewrite terminals_app, IH, app_nil_r.
    unfold WorkerBase.checkCachedAuthentication.
    rewrite (proj2 (checkCachedAuthentication_run info s)). reflexivity.
  - run_bind. rewrite terminals_app, IH, app_nil_r.
    unfold WorkerBase.openPasswordDialog.
    rewrite openPasswordDialogV2_sent. reflexivity.
Qed.

Lemma finalize_run (r : WorkerResult) (s : Session) :
  WorkerSlaveBaseBridge.finalize r s = (tt, s, closing Conclusive r).
Proof.
  unfold WorkerSlaveBaseBridge.finalize, closing. destruct (success r); reflexivity.
Qed.

Lemma maybeError_run (r : WorkerResult) (s : Session) :
  WorkerSlaveBaseBridge.maybeError r s = (tt, s, closing ErrorOnly r).
Proof.
  unfold WorkerSlaveBaseBridge.maybeError, closing. destruct (success r); reflexivity.
Qed.

Lemma finalized_run (p : Prog WorkerResult) (s : Session) :
  (WorkerBase.run p ≫= WorkerSlaveBaseBridge.finalize) s =
  (tt, state (WorkerBase.run p s),
   sent (WorkerBase.run p s) ++ closing Conclusive (value (WorkerBase.run p s))).
Proof. rewrite bind_run, finalize_run. reflexivity. Qed.

Lemma maybeErrored_run (p : Prog WorkerResult) (s : Session) :
  (WorkerBase.run p ≫= WorkerSlaveBaseBridge.maybeError) s =
  (tt, state (WorkerBase.run p s),
   sent (WorkerBase.run p s) ++ closing ErrorOnly (value (WorkerBase.run p s))).
Proof. rewrite bind_run, maybeError_run. reflexivity. Qed.

Lemma unsupported_run (w : Worker) (c : Z) (s : Session) :
  WorkerBase.run (WorkerBase.unsupported w c) s =
  (WorkerResult.fail ERR_UNSUPPORTED_ACTION
     (unsupportedActionErrorString (protocolName w) c), s, []).
Proof. reflexivity. Qed.

(** What [dispatch] sends for a classified operation. *)
Lemma dispatch_run (base : Worker) (c : Call) (k : Completion) (s : Session) :
  completion c = Some k ->
  dispatch base c s =
  (tt, state (WorkerBase.run (invoke base c) s),
   sent (WorkerBase.run (invoke base c) s)
     ++ closing k (value (WorkerBase.run (invoke base c) s))).
Proof.
  intros Hk.
  destruct c; simpl in Hk; inversion Hk; subst k; clear Hk; simpl;
    try apply finalized_run; try apply maybeErrored_run.
  - unfold WorkerSlaveBaseBridge.openConnection. rewrite bind_run.
    unfold closing. destruct (success _); reflexivity.
  - unfold WorkerSlaveBaseBridge.open. rewrite bind_run.
    unfold closing. destruct (success _); reflexivity.
  - unfold WorkerSlaveBaseBridge.virtual_hook. rewrite Z.eqb_refl.
    apply finalized_run.
Qed.

End RunFacts.

(** ** Result values *)

(** C3, as amended: [pass()] has success = true and the sentinel code 0;
    for every pair (code, msg), [fail(code, msg)] has success = false and
    carries exactly the code and message given, so its code differs from the
    sentinel exactly when code is not 0.  For a Result built by one of the
    two constructors, success = true comes with the sentinel code (with a
    non-sentinel code it is unreachable), and success = false with the
    sentinel code is reached only as [fail(0, msg)]. *)
Theorem constructed_result (code : Z) (msg : QString) (r : WorkerResult) :
  WorkerResult.constructed r ->
  (success WorkerResult.pass = true /\ error WorkerResult.pass = 0 /\
   errorString WorkerResult.pass = ""%string) /\
  (success (WorkerResult.fail code msg) = false /\
   error (WorkerResult.fail code msg) = code /\
   errorString (WorkerResult.fail code msg) = msg) /\
  (error (WorkerResult.fail code msg) <> 0 <-> code <> 0) /\
  (if success r
   then r = WorkerResult.pass /\ error r = 0
   else r = WorkerResult.fail (error r) (errorString r) /\
        forall code' msg', r = WorkerResult.fail code' msg' ->
                           error r = code' /\ errorString r = msg') /\
  (error r <> 0 -> success r = false) /\
  (success r = false -> error r = 0 -> r = WorkerResult.fail 0 (errorString r)).
Proof.
  intros Hr.
  split; [repeat split|]. split; [repeat split|]. split; [reflexivity|].
  destruct Hr as [|code0 msg0]; simpl.
  - split; [split; reflexivity|].
    split; [intros Hne; contradiction | intros Hs; discriminate Hs].
  - split; [split; [reflexivity|]|].
    + intros code' msg' Heq. inversion Heq. split; reflexivity.
    + split; [reflexivity|]. intros _ Hz. rewrite Hz. reflexivity.
Qed.

Lemma constructed_result_witness :
  WorkerResult.constructed (WorkerResult.fail 143 "gone") /\
  success WorkerResult.pass = true /\
  success (WorkerResult.fail 143 "gone") = false /\
  error (WorkerResult.fail 143 "gone") = 143.
Proof.
  split; [constructor|].
  pose proof (constructed_result 143 "gone"%string (WorkerResult.fail 143 "gone")
                (WorkerResult.constructed_fail 143 "gone"))
    as ((Hpass & _) & (Hfail & Hcode & _) & _).
  split; [exact Hpass|]. split; [exact Hfail | exact Hcode].
Defined.

(** C3, as stated, fails: [fail(0, QString())] is a constructed Result with
    success = false and the sentinel code. *)
Lemma fail_with_sentinel_code :
  WorkerResult.constructed (WorkerResult.fail 0 "") /\
  success (WorkerResult.fail 0 "") = false /\
  ~ error (WorkerResult.fail 0 "") <> 0.
Proof.
  split; [constructor|]. split; [reflexivity|].
  intros Hne. apply Hne. reflexivity.
Qed.

(** ** Default operations *)

Ltac not_overridden Hov :=
  apply bool_decide_eq_false in Hov;
  match type of Hov with
  | ¬ is_Some ?o => destruct o eqn:?; [exfalso; apply Hov; eauto|]
  end.

(** C2, as amended: an operation of the surface other than [mimetype] that
    the worker does not override returns, without any other effect, the
    failing Result with code ERR_UNSUPPORTED_ACTION and the message for the
    worker's protocol and the verb's opcode; a [mimetype] that is not
    overridden returns the Result of [get(url)]. *)
Theorem default_operation `{Globals} (w : Worker) (c : Call) :
  overridden w c = false ->
  invoke w c =
  match c with
  | Call_mimetype url => invoke w (Call_get url)
  | _ => Ret (WorkerResult.fail ERR_UNSUPPORTED_ACTION
                (unsupportedActionErrorString (protocolName w) (cmd (opcode c))))
  end.
Proof.
  intros Hov.
  destruct c; simpl in *; autounfold with virtuals; not_overridden Hov; reflexivity.
Qed.

Lemma default_operation_witness :
  overridden (plainWorker "file") (Call_stat "file:///a") = false /\
  invoke (H := sample_globals) (plainWorker "file") (Call_stat "file:///a") =
  Ret (WorkerResult.fail 108 "Protocol file does not support action 10").
Proof.
  split; [reflexivity|].
  exact (default_operation (H := sample_globals) (plainWorker "file")
           (Call_stat "file:///a") eq_refl).
Defined.

(** C2, as stated, fails at [mimetype]: on a worker that overrides [get]
    only, the [mimetype] that is not overridden returns [pass()], not the
    Unsupported-Action Result. *)
Lemma default_mimetype_passes :
  overridden fileWorker (Call_mimetype "file:///a") = false /\
  value (WorkerBase.run (H := sample_globals)
           (invoke (H := sample_globals) fileWorker (Call_mimetype "file:///a")) idle) = WorkerResult.pass /\
  value (WorkerBase.run (H := sample_globals)
           (invoke (H := sample_globals) fileWorker (Call_mimetype "file:///a")) idle)
    <> unsupportedResult (H := sample_globals) fileWorker (Call_mimetype "file:///a").
Proof.
  split; [reflexivity|]. split; [reflexivity|].
  intros Heq. apply (f_equal success) in Heq. discriminate Heq.
Qed.

(** C10: the [mimetype] of the base class returns exactly the Result of
    [get(url)]: whatever the override of [get] does when there is one, and
    the Unsupported-Action failure for the opcode CMD_GET when there is none,
    which is the failure for CMD_MIMETYPE only if the formatter gives both
    opcodes the same message. *)
Theorem mimetype_is_get `{Globals} (w : Worker) (url : QUrl) :
  o_mimetype w = None ->
  WorkerBase.mimetype w url = invoke w (Call_get url) /\
  invoke w (Call_mimetype url) = invoke w (Call_get url) /\
  match o_get w with
  | Some f => invoke w (Call_mimetype url) = f url
  | None =>
      invoke w (Call_mimetype url) = unsupported_get w /\
      (invoke w (Call_mimetype url) = Ret (unsupportedResult w (Call_mimetype url)) <->
       unsupportedActionErrorString (protocolName w) (cmd CMD_GET) =
       unsupportedActionErrorString (protocolName w) (cmd CMD_MIMETYPE))
  end.
Proof.
  intros Hm. split; [reflexivity|].
  simpl. unfold WorkerBase.v_mimetype. rewrite Hm. simpl.
  split; [reflexivity|].
  unfold WorkerBase.mimetype, WorkerBase.v_get, unsupported_get.
  destruct (o_get w) as [f|]; simpl; [reflexivity|].
  split; [reflexivity|].
  unfold WorkerBase.get, WorkerBase.unsupported, unsupportedResult, WorkerResult.fail; simpl.
  split.
  - intros Heq. inversion Heq. reflexivity.
  - intros Heq. rewrite Heq. reflexivity.
Qed.

Lemma mimetype_is_get_witness :
  o_mimetype (plainWorker "file") = None /\
  invoke (H := sample_globals) (plainWorker "file") (Call_mimetype "file:///a") =
  Ret (WorkerResult.fail 108 "Protocol file does not support action 2").
Proof.
  split; [reflexivity|].
  exact (proj1 (proj2 (proj2 (mimetype_is_get (H := sample_globals) (plainWorker "file")
                                 "file:///a"%string eq_refl)))).
Defined.

(** ** The legacy bridge *)

(** C1, as amended: what the bridge sends for an operation is what the
    operation itself sent, none of it terminal, followed by the closing of
    the member.  A member that closes with [finalize] ([setSubUrl], [get],
    [close], [put], [stat], [mimetype], [listDir], [mkdir], [rename],
    [symlink], [chmod], [chown], [setModificationTime], [copy], [del],
    [setLinkDest], [multiGet], [fileSystemFreeSpace]) sends exactly one
    terminal notification: "finished" on success, "error" with the Result's
    code and message on failure.  [read], [write], [seek] and [special] send
    that "error" on failure and no terminal notification on success;
    [openConnection] and [open] send it on failure and "connected" or
    "opened", not "finished", on success. *)
Theorem bridge_closing `{Globals} (base : Worker) (c : Call) (k : Completion) (s : Session) :
  completion c = Some k ->
  sent (dispatch base c s) =
    sent (WorkerBase.run (invoke base c) s)
      ++ closing k (value (WorkerBase.run (invoke base c) s)) /\
  terminals (sent (WorkerBase.run (invoke base c) s)) = [] /\
  terminals (sent (dispatch base c s)) =
    (if success (value (WorkerBase.run (invoke base c) s))
     then match k with Conclusive => [N_finished] | _ => [] end
     else [N_error (error (value (WorkerBase.run (invoke base c) s)))
                   (errorString (value (WorkerBase.run (invoke base c) s)))]).
Proof.
  intros Hk. rewrite (dispatch_run base c k s Hk). simpl.
  split; [reflexivity|]. split; [apply run_no_terminal|].
  rewrite terminals_app, run_no_terminal. simpl.
  unfold closing. destruct (success _); [destruct k|]; reflexivity.
Qed.

Lemma bridge_closing_witness :
  completion (Call_get "file:///a") = Some Conclusive /\
  terminals (sent (dispatch (H := sample_globals) fileWorker (Call_get "file:///a") idle)) =
  [N_finished].
Proof.
  split; [reflexivity|].
  exact (proj2 (proj2 (bridge_closing (H := sample_globals) fileWorker
                         (Call_get "file:///a") Conclusive idle eq_refl))).
Defined.

(** C1, as stated, fails at [read]: a [read] that returns [pass()] leaves
    the bridge without any terminal notification, where "finished" is owed. *)
Lemma read_success_sends_no_terminal :
  value (WorkerBase.run (H := sample_globals)
           (invoke (H := sample_globals) readWorker (Call_read 10)) idle) = WorkerResult.pass /\
  terminals (sent (dispatch (H := sample_globals) readWorker (Call_read 10) idle)) = [] /\
  terminals (sent (dispatch (H := sample_globals) readWorker (Call_read 10) idle)) <>
  [owed (value (WorkerBase.run (H := sample_globals)
                  (invoke (H := sample_globals) readWorker (Call_read 10)) idle))].
Proof.
  split; [reflexivity|]. split; [reflexivity|].
  intros Heq. discriminate Heq.
Qed.

(** C6: the [virtual_hook] of the base class returns, for every id, the
    failing Result with code ERR_UNSUPPORTED_ACTION and the message for the
    protocol and that id; for an id that is neither [GetFileSystemFreeSpace]
    nor [Truncate], on a worker that keeps this hook, the bridge sends
    exactly the "error" notification of that Result and returns. *)
Theorem unknown_hook_unsupported `{Globals} (w : Worker) (id : Z) (data : VoidPtr) (s : Session) :
  id <> GetFileSystemFreeSpace -> id <> Truncate -> o_virtual_hook w = None ->
  WorkerBase.run (WorkerBase.v_virtual_hook w id data) s =
    (WorkerResult.fail ERR_UNSUPPORTED_ACTION
       (unsupportedActionErrorString (protocolName w) id), s, []) /\
  WorkerSlaveBaseBridge.virtual_hook w id data s =
    (tt, s, [N_error ERR_UNSUPPORTED_ACTION
               (unsupportedActionErrorString (protocolName w) id)]).
Proof.
  intros Hf Ht Ho.
  unfold WorkerSlaveBaseBridge.virtual_hook, WorkerBase.v_virtual_hook.
  rewrite Ho. simpl. split; [reflexivity|].
  apply Z.eqb_neq in Hf, Ht. rewrite Hf, Ht.
  reflexivity.
Qed.

Lemma unknown_hook_unsupported_witness :
  7 <> GetFileSystemFreeSpace (Globals := sample_globals) /\
  7 <> Truncate (Globals := sample_globals) /\
  o_virtual_hook (plainWorker "file") = None /\
  WorkerSlaveBaseBridge.virtual_hook (H := sample_globals) (plainWorker "file") 7
    (mkVoidPtr "" 0) idle =
  (tt, idle, [N_error 108 "Protocol file does not support action 7"]).
Proof.
  assert (Hf : 7 <> GetFileSystemFreeSpace (Globals := sample_globals)) by (simpl; lia).
  assert (Ht : 7 <> Truncate (Globals := sample_globals)) by (simpl; lia).
  split; [exact Hf|]. split; [exact Ht|]. split; [reflexivity|].
  exact (proj2 (unknown_hook_unsupported (H := sample_globals) (plainWorker "file") 7
                  (mkVoidPtr "" 0) idle Hf Ht eq_refl)).
Defined.

(** C9: when the bridge's [virtual_hook] is entered with the [Truncate] id,
    it calls [truncate], reports its error if it failed, and then calls the
    hook of the worker with the same id; on a worker that keeps the hook of
    the base class this second call fails, so the bridge ends by sending the
    Unsupported-Action "error" for the id [Truncate], also when [truncate]
    itself succeeded. *)
Theorem truncate_falls_through `{Globals} (w : Worker) (data : VoidPtr) (s : Session) :
  Truncate <> GetFileSystemFreeSpace -> o_virtual_hook w = None ->
  WorkerSlaveBaseBridge.virtual_hook w Truncate data s =
    (tt, state (WorkerBase.run (WorkerBase.v_truncate w (as_filesize data)) s),
     sent (WorkerBase.run (WorkerBase.v_truncate w (as_filesize data)) s)
       ++ closing ErrorOnly (value (WorkerBase.run (WorkerBase.v_truncate w (as_filesize data)) s))
       ++ [N_error ERR_UNSUPPORTED_ACTION
             (unsupportedActionErrorString (protocolName w) Truncate)]).
Proof.
  intros Hne Ho.
  unfold WorkerSlaveBaseBridge.virtual_hook, WorkerBase.v_virtual_hook.
  rewrite Ho. simpl.
  apply Z.eqb_neq in Hne. rewrite Hne, Z.eqb_refl.
  rewrite bind_run, maybeErrored_run. simpl. rewrite <- app_assoc. reflexivity.
Qed.

Lemma truncate_falls_through_witness :
  Truncate (Globals := sample_globals) <> GetFileSystemFreeSpace (Globals := sample_globals) /\
  o_virtual_hook truncWorker = None /\
  dispatch (H := sample_globals) truncWorker (Call_truncate 5) idle =
  (tt, idle, [N_signal (S_truncated 5);
              N_error 108 "Protocol file does not support action 2"]).
Proof.
  assert (Hne : Truncate (Globals := sample_globals)
                <> GetFileSystemFreeSpace (Globals := sample_globals)) by (simpl; lia).
  split; [exact Hne|]. split; [reflexivity|].
  exact (truncate_falls_through (H := sample_globals) truncWorker
           (mkVoidPtr "" 5) idle Hne eq_refl).
Defined.

(** ** Authentication *)

Lemma find_existsb {A} (f : A -> bool) (l : list A) :
  bool_decide (is_Some (List.find f l)) = existsb f l.
Proof.
  induction l as [|a l IH]; simpl; [reflexivity|].
  destruct (f a); simpl; [reflexivity | exact IH].
Qed.

(** C4: [checkCachedAuthentication] is a lookup: it sends nothing, so no
    prompt, leaves the session as it was, and returns whether the credential
    store holds a matching entry.  [openPasswordDialog] sends exactly one
    prompt, takes at most the one next answer of the application, and its
    code is 0 (NoError), ERR_USER_CANCELED or ERR_COMMUNICATION_FAILURE. *)
Theorem authentication_round_trips `{Globals} (info : AuthInfo) (errorMsg : QString)
    (s : Session) :
  sent (WorkerBase.checkCachedAuthentication info s) = [] /\
  state (WorkerBase.checkCachedAuthentication info s) = s /\
  (value (WorkerBase.checkCachedAuthentication info s)).1 =
    existsb (credentialMatches info) (credentialStore s) /\
  sent (WorkerBase.openPasswordDialog info errorMsg s) = [N_passwordPrompt info errorMsg] /\
  promptAnswers (state (WorkerBase.openPasswordDialog info errorMsg s)) =
    List.tl (promptAnswers s) /\
  ((value (WorkerBase.openPasswordDialog info errorMsg s)).1 = 0 \/
   (value (WorkerBase.openPasswordDialog info errorMsg s)).1 = ERR_USER_CANCELED \/
   (value (WorkerBase.openPasswordDialog info errorMsg s)).1 = ERR_COMMUNICATION_FAILURE).
Proof.
  unfold WorkerBase.checkCachedAuthentication, WorkerBase.openPasswordDialog.
  destruct (checkCachedAuthentication_run info s) as [Hst Hout].
  split; [exact Hout|]. split; [exact Hst|].
  split.
  { rewrite <- find_existsb.
    unfold SlaveBase.checkCachedAuthentication. rewrite bind_run. simpl.
    destruct (List.find _ _); reflexivity. }
  split; [apply openPasswordDialogV2_sent|].
  unfold SlaveBase.openPasswordDialogV2, SlaveBase.awaitAnswer, emit.
  rewrite !bind_run. simpl.
  destruct (promptAnswers s) as [|[filled| |] rest] eqn:Hanswers; simpl;
    rewrite ?Hanswers; (split; [reflexivity | auto]).
Qed.

(** ** Negotiation on rename and copy *)

(** C5: for [rename] and [copy], a failing Result with code
    ERR_UNSUPPORTED_ACTION makes the caller retry through the composite
    strategy of the verb (copy+delete for rename, get+put for copy), a
    failing Result with an Already-Exists code is terminal, and the [rename]
    and [copy] of the base class return exactly the Unsupported-Action
    Result, so that a worker overriding neither is driven into the
    fallback. *)
Theorem rename_copy_negotiation `{Globals} (w : Worker) (verb : Command)
    (steps : list Command) (msg : QString) (src dest : QUrl) (permissions : Z)
    (flags : JobFlags) :
  composite verb = Some steps ->
  ERR_FILE_ALREADY_EXIST <> ERR_UNSUPPORTED_ACTION ->
  ERR_DIR_ALREADY_EXIST <> ERR_UNSUPPORTED_ACTION ->
  (verb = CMD_RENAME /\ steps = [CMD_COPY; CMD_DEL] \/
   verb = CMD_COPY /\ steps = [CMD_GET; CMD_PUT]) /\
  reaction verb (WorkerResult.fail ERR_UNSUPPORTED_ACTION msg) = Fallback steps /\
  reaction verb (WorkerResult.fail ERR_FILE_ALREADY_EXIST msg) =
    Failed ERR_FILE_ALREADY_EXIST msg /\
  reaction verb (WorkerResult.fail ERR_DIR_ALREADY_EXIST msg) =
    Failed ERR_DIR_ALREADY_EXIST msg /\
  WorkerBase.rename w src dest flags =
    Ret (WorkerResult.fail ERR_UNSUPPORTED_ACTION
           (unsupportedActionErrorString (protocolName w) (cmd CMD_RENAME))) /\
  WorkerBase.copy w src dest permissions flags =
    Ret (WorkerResult.fail ERR_UNSUPPORTED_ACTION
           (unsupportedActionErrorString (protocolName w) (cmd CMD_COPY))) /\
  match o_rename w with
  | None => forall s, reaction CMD_RENAME
                        (value (WorkerBase.run (invoke w (Call_rename src dest flags)) s))
                      = Fallback [CMD_COPY; CMD_DEL]
  | Some _ => True
  end /\
  match o_copy w with
  | None => forall s, reaction CMD_COPY
                        (value (WorkerBase.run
                                  (invoke w (Call_copy src dest permissions flags)) s))
                      = Fallback [CMD_GET; CMD_PUT]
  | Some _ => True
  end.
Proof.
  intros Hc Hfile Hdir.
  apply Z.eqb_neq in Hfile, Hdir.
  assert (Hverb : verb = CMD_RENAME /\ steps = [CMD_COPY; CMD_DEL] \/
                  verb = CMD_COPY /\ steps = [CMD_GET; CMD_PUT]).
  { destruct verb; simpl in Hc; try discriminate Hc; inversion Hc; auto. }
  split; [exact Hverb|].
  unfold reaction; simpl. rewrite Hc, Z.eqb_refl, Hfile, Hdir.
  repeat (split; [reflexivity|]).
  split.
  - unfold WorkerBase.v_rename. destruct (o_rename w); [exact I|].
    intros s. simpl. rewrite Z.eqb_refl. reflexivity.
  - unfold WorkerBase.v_copy. destruct (o_copy w); [exact I|].
    intros s. simpl. rewrite Z.eqb_refl. reflexivity.
Qed.

Lemma rename_copy_negotiation_witness :
  composite CMD_RENAME = Some [CMD_COPY; CMD_DEL] /\
  ERR_FILE_ALREADY_EXIST (Globals := sample_globals)
    <> ERR_UNSUPPORTED_ACTION (Globals := sample_globals) /\
  ERR_DIR_ALREADY_EXIST (Globals := sample_globals)
    <> ERR_UNSUPPORTED_ACTION (Globals := sample_globals) /\
  reaction (H := sample_globals) CMD_RENAME (WorkerResult.fail 108 "no") =
    Fallback [CMD_COPY; CMD_DEL] /\
  reaction (H := sample_globals) CMD_RENAME (WorkerResult.fail 112 "no") = Failed 112 "no".
Proof.
  assert (Hfile : ERR_FILE_ALREADY_EXIST (Globals := sample_globals)
                  <> ERR_UNSUPPORTED_ACTION (Globals := sample_globals)) by (simpl; lia).
  assert (Hdir : ERR_DIR_ALREADY_EXIST (Globals := sample_globals)
                 <> ERR_UNSUPPORTED_ACTION (Globals := sample_globals)) by (simpl; lia).
  split; [reflexivity|]. split; [exact Hfile|]. split; [exact Hdir|].
  pose proof (rename_copy_negotiation (H := sample_globals) (plainWorker "file")
                CMD_RENAME [CMD_COPY; CMD_DEL] "no"%string "a"%string "b"%string (-1) 0
                eq_refl Hfile Hdir) as (_ & Hun & Hex & _).
  split; [exact Hun | exact Hex].
Defined.

(** ** MetaData exchange *)

Section MetaDataFacts.
Context `{Globals}.

Lemma setAll_run (pairs : list (QString * QString)) (s : Session) :
  setAll pairs s =
  (tt, with_outgoing (fold_left (fun m kv => <[kv.1 := kv.2]> m) pairs
                        (mOutgoingMetaData s)) s, []).
Proof.
  revert s. induction pairs as [|[key v] rest IH]; intros s; simpl.
  - destruct s; reflexivity.
  - rewrite bind_run. simpl. rewrite IH. reflexivity.
Qed.

Lemma sendAndKeepMetaData_run (s : Session) :
  WorkerBase.sendAndKeepMetaData s =
  (tt, s, if decide (mOutgoingMetaData s = ∅) then []
          else [N_metaData (mOutgoingMetaData s)]).
Proof.
  unfold WorkerBase.sendAndKeepMetaData, SlaveBase.sendAndKeepMetaData.
  destruct (decide _); reflexivity.
Qed.

Lemma sendMetaData_run (s : Session) :
  WorkerBase.sendMetaData s =
  (tt, with_outgoing ∅ s, if decide (mOutgoingMetaData s = ∅) then []
                          else [N_metaData (mOutgoingMetaData s)]).
Proof.
  unfold WorkerBase.sendMetaData, SlaveBase.sendMetaData.
  rewrite bind_run. fold WorkerBase.sendAndKeepMetaData.
  rewrite sendAndKeepMetaData_run. simpl. rewrite app_nil_r. reflexivity.
Qed.

Lemma armAll_app (calls : list (Z * QByteArray)) (timeout : Z) (data : QByteArray)
    (s : Session) :
  state (armAll (calls ++ [(timeout, data)]) s) =
  with_timeout (if timeout <? 0 then None else Some (timeout, data)) s.
Proof.
  revert s. induction calls as [|[t d] rest IH]; intros s; simpl.
  - reflexivity.
  - rewrite bind_run. simpl. rewrite IH. reflexivity.
Qed.

End MetaDataFacts.

(** C7: after any sequence of [setMetaData] calls the outgoing buffer holds
    the accumulated pairs.  [sendMetaData] sends them and leaves the buffer
    empty, so that a flush of either kind right after it sends nothing;
    [sendAndKeepMetaData] sends them and leaves the session as it was, so
    that a flush of either kind right after it sends the same pairs again. *)
Theorem metadata_flush `{Globals} (pairs : list (QString * QString)) (s : Session) :
  mOutgoingMetaData (state (setAll pairs s)) =
    fold_left (fun m kv => <[kv.1 := kv.2]> m) pairs (mOutgoingMetaData s) /\
  sent (WorkerBase.sendMetaData (state (setAll pairs s))) =
    (if decide (mOutgoingMetaData (state (setAll pairs s)) = ∅) then []
     else [N_metaData (mOutgoingMetaData (state (setAll pairs s)))]) /\
  mOutgoingMetaData (state (WorkerBase.sendMetaData (state (setAll pairs s)))) = ∅ /\
  sent (WorkerBase.sendMetaData
          (state (WorkerBase.sendMetaData (state (setAll pairs s))))) = [] /\
  sent (WorkerBase.sendAndKeepMetaData
          (state (WorkerBase.sendMetaData (state (setAll pairs s))))) = [] /\
  sent (WorkerBase.sendAndKeepMetaData (state (setAll pairs s))) =
    sent (WorkerBase.sendMetaData (state (setAll pairs s))) /\
  state (WorkerBase.sendAndKeepMetaData (state (setAll pairs s))) = state (setAll pairs s) /\
  sent (WorkerBase.sendAndKeepMetaData
          (state (WorkerBase.sendAndKeepMetaData (state (setAll pairs s))))) =
    sent (WorkerBase.sendAndKeepMetaData (state (setAll pairs s))) /\
  sent (WorkerBase.sendMetaData
          (state (WorkerBase.sendAndKeepMetaData (state (setAll pairs s))))) =
    sent (WorkerBase.sendAndKeepMetaData (state (setAll pairs s))).
Proof.
  rewrite setAll_run. cbn [state fst snd].
  set (s1 := with_outgoing _ s).
  repeat (rewrite ?sendMetaData_run, ?sendAndKeepMetaData_run; cbn [state sent fst snd]).
  repeat split; try reflexivity.
Qed.

(** ** Timeout *)

(** C8: the session holds the pending timeout in one place.  After any
    sequence of [setTimeoutSpecialCommand] calls, only the last one counts:
    with a timeout >= 0 exactly its {timeout, payload} pair is pending and an
    expiry delivers [special] with that payload and nothing pending; with a
    negative timeout nothing is pending and an expiry delivers nothing and
    leaves the session as it was. *)
Theorem single_pending_timeout `{Globals} (base : Worker) (calls : list (Z * QByteArray))
    (timeout : Z) (data : QByteArray) (s : Session) :
  pendingTimeout (state (armAll (calls ++ [(timeout, data)]) s)) =
    (if timeout <? 0 then None else Some (timeout, data)) /\
  timeoutExpired base (state (armAll (calls ++ [(timeout, data)]) s)) =
    (if timeout <? 0
     then (tt, state (armAll (calls ++ [(timeout, data)]) s), [])
     else WorkerSlaveBaseBridge.special base data (with_timeout None s)).
Proof.
  rewrite armAll_app. split; [reflexivity|].
  unfold timeoutExpired. rewrite bind_run. simpl.
  destruct (timeout <? 0); [reflexivity|].
  rewrite bind_run. simpl.
  change (with_timeout None (with_timeout (Some (timeout, data)) s))
    with (with_timeout None s).
  destruct (WorkerSlaveBaseBridge.special base data (with_timeout None s)) as [[[] s2] out].
  reflexivity.
Qed.

(** ** More on the bridge *)


(** X2: what the bridge's [virtual_hook] does, for every id and every
    worker.  With the id [GetFileSystemFreeSpace] it runs
    [fileSystemFreeSpace] and closes it like any conclusive operation, and it
    never calls the worker's hook: the outcome is the same whatever hook the
    worker has.  With every other id it runs [truncate] first when the id is
    [Truncate], then the worker's hook, and sends one "error" for each of
    these calls that fails and never "finished". *)
Theorem virtual_hook_terminals `{Globals} (base : Worker) (id : Z) (data : VoidPtr)
    (s : Session) (hook : option (Z -> VoidPtr -> Prog WorkerResult)) :
  Truncate <> GetFileSystemFreeSpace ->
  WorkerSlaveBaseBridge.virtual_hook base id data s =
    (if id =? GetFileSystemFreeSpace then
       (tt, state (WorkerBase.run (WorkerBase.v_fileSystemFreeSpace base (as_QUrl data)) s),
        sent (WorkerBase.run (WorkerBase.v_fileSystemFreeSpace base (as_QUrl data)) s)
          ++ closing Conclusive
               (value (WorkerBase.run
                         (WorkerBase.v_fileSystemFreeSpace base (as_QUrl data)) s)))
     else if id =? Truncate then
       (tt,
        state (WorkerBase.run (WorkerBase.v_virtual_hook base id data)
                 (state (WorkerBase.run (WorkerBase.v_truncate base (as_filesize data)) s))),
        sent (WorkerBase.run (WorkerBase.v_truncate base (as_filesize data)) s)
          ++ closing ErrorOnly
               (value (WorkerBase.run (WorkerBase.v_truncate base (as_filesize data)) s))
          ++ sent (WorkerBase.run (WorkerBase.v_virtual_hook base id data)
                     (state (WorkerBase.run
                               (WorkerBase.v_truncate base (as_filesize data)) s)))
          ++ closing ErrorOnly
               (value (WorkerBase.run (WorkerBase.v_virtual_hook base id data)
                         (state (WorkerBase.run
                                   (WorkerBase.v_truncate base (as_filesize data)) s)))))
     else
       (tt, state (WorkerBase.run (WorkerBase.v_virtual_hook base id data) s),
        sent (WorkerBase.run (WorkerBase.v_virtual_hook base id data) s)
          ++ closing ErrorOnly
               (value (WorkerBase.run (WorkerBase.v_virtual_hook base id data) s)))) /\
  WorkerSlaveBaseBridge.virtual_hook (with_virtual_hook hook base)
      GetFileSystemFreeSpace data s =
    WorkerSlaveBaseBridge.virtual_hook base GetFileSystemFreeSpace data s /\
  terminals (sent (WorkerSlaveBaseBridge.virtual_hook base id data s)) =
  (if id =? GetFileSystemFreeSpace then
     closing Conclusive
       (value (WorkerBase.run (WorkerBase.v_fileSystemFreeSpace base (as_QUrl data)) s))
   else if id =? Truncate then
     closing ErrorOnly
       (value (WorkerBase.run (WorkerBase.v_truncate base (as_filesize data)) s))
     ++ closing ErrorOnly
          (value (WorkerBase.run (WorkerBase.v_virtual_hook base id data)
                    (state (WorkerBase.run (WorkerBase.v_truncate base (as_filesize data)) s))))
   else
     closing ErrorOnly (value (WorkerBase.run (WorkerBase.v_virtual_hook base id data) s))).
Proof.
  intros Hne.
  assert (Hclosing : forall k r, terminals (closing k r) =
                                 match k with
                                 | Conclusive | ErrorOnly => closing k r
                                 | _ => if success r then [] else closing k r
                                 end).
  { intros k r. unfold closing. destruct (success r), k; reflexivity. }
  split; [|split].
  - unfold WorkerSlaveBaseBridge.virtual_hook.
    destruct (id =? GetFileSystemFreeSpace); [apply finalized_run|].
    destruct (id =? Truncate).
    + rewrite bind_run, maybeErrored_run. simpl. rewrite maybeErrored_run. simpl.
      rewrite <- !app_assoc. reflexivity.
    + rewrite bind_run. simpl. rewrite maybeErrored_run. reflexivity.
  - unfold WorkerSlaveBaseBridge.virtual_hook. rewrite Z.eqb_refl. reflexivity.
  - unfold WorkerSlaveBaseBridge.virtual_hook.
    destruct (id =? GetFileSystemFreeSpace).
    + rewrite finalized_run. simpl.
      rewrite terminals_app, run_no_terminal, (Hclosing Conclusive). reflexivity.
    + destruct (id =? Truncate).
      * rewrite bind_run, maybeErrored_run. simpl. rewrite maybeErrored_run. simpl.
        rewrite !terminals_app, !run_no_terminal, !(Hclosing ErrorOnly). reflexivity.
      * rewrite bind_run. simpl. rewrite maybeErrored_run. simpl.
        rewrite terminals_app, run_no_terminal, (Hclosing ErrorOnly). reflexivity.
Qed.

Lemma virtual_hook_terminals_witness :
  Truncate (Globals := sample_globals) <> GetFileSystemFreeSpace (Globals := sample_globals) /\
  WorkerSlaveBaseBridge.virtual_hook (H := sample_globals)
    (with_virtual_hook (Some noisy_hook) (plainWorker "file")) 1 (mkVoidPtr "" 9) idle =
  (tt, idle, [N_error 108 "Protocol file does not support action 25"]) /\
  terminals (sent (WorkerSlaveBaseBridge.virtual_hook (H := sample_globals)
                     (plainWorker "file") 2 (mkVoidPtr "" 9) idle)) =
  [N_error 108 "Protocol file does not support action 7";
   N_error 108 "Protocol file does not support action 2"].
Proof.
  assert (Hne : Truncate (Globals := sample_globals)
                <> GetFileSystemFreeSpace (Globals := sample_globals)) by (simpl; lia).
  split; [exact Hne|]. split.
  - exact (proj1 (proj2 (virtual_hook_terminals (H := sample_globals) (plainWorker "file")
                           1 (mkVoidPtr "" 9) idle (Some noisy_hook) Hne))).
  - exact (proj2 (proj2 (virtual_hook_terminals (H := sample_globals) (plainWorker "file")
                           2 (mkVoidPtr "" 9) idle None Hne))).
Defined.

(** X3: a worker that overrides nothing answers every command with the
    Unsupported-Action "error" and nothing else: one notification, with the
    message for the opcode of the verb ([mimetype]: for CMD_GET), and for
    [truncate] two, the second with the message for the id [Truncate]. *)
Theorem plain_worker_sends_unsupported `{Globals} (protocol : QString) (c : Call)
    (s : Session) :
  Truncate <> GetFileSystemFreeSpace ->
  sent (dispatch (plainWorker protocol) c s) =
  match c with
  | Call_truncate _ =>
      [N_error ERR_UNSUPPORTED_ACTION
         (unsupportedActionErrorString protocol (cmd CMD_TRUNCATE));
       N_error ERR_UNSUPPORTED_ACTION (unsupportedActionErrorString protocol Truncate)]
  | Call_mimetype _ =>
      [N_error ERR_UNSUPPORTED_ACTION (unsupportedActionErrorString protocol (cmd CMD_GET))]
  | _ =>
      [N_error ERR_UNSUPPORTED_ACTION
         (unsupportedActionErrorString protocol (cmd (opcode c)))]
  end.
Proof.
  intros Hne. apply Z.eqb_neq in Hne.
  destruct c; try reflexivity.
  - simpl. unfold WorkerSlaveBaseBridge.virtual_hook.
    rewrite Hne, Z.eqb_refl. reflexivity.
  - simpl. unfold WorkerSlaveBaseBridge.virtual_hook.
    rewrite Z.eqb_refl. reflexivity.
Qed.

Lemma plain_worker_sends_unsupported_witness :
  Truncate (Globals := sample_globals) <> GetFileSystemFreeSpace (Globals := sample_globals) /\
  sent (dispatch (H := sample_globals) (plainWorker "file") (Call_mkdir "file:///d" (-1)) idle)
  = [N_error 108 "Protocol file does not support action 13"].
Proof.
  assert (Hne : Truncate (Globals := sample_globals)
                <> GetFileSystemFreeSpace (Globals := sample_globals)) by (simpl; lia).
  split; [exact Hne|].
  exact (plain_worker_sends_unsupported (H := sample_globals) "file"
           (Call_mkdir "file:///d" (-1)) idle Hne).
Defined.

(** X4: the HTTP worker overrides eleven operations; each of the other
    fourteen (openConnection, open, read, write, seek, truncate, close,
    symlink, chmod, chown, setModificationTime, setLinkDest, setSubUrl,
    multiGet) is exactly not overridden and returns the Unsupported-Action
    Result for its opcode, and [mimetype], being overridden, does not go
    through [get]. *)
Theorem http_worker_surface `{Globals} (protocol : QString) (b : HTTPBodies) (c : Call)
    (url : QUrl) :
  (overridden (HTTPProtocol protocol b) c = false <-> In (opcode c) http_unsupported) /\
  (if overridden (HTTPProtocol protocol b) c then True
   else invoke (HTTPProtocol protocol b) c =
        Ret (WorkerResult.fail ERR_UNSUPPORTED_ACTION
               (unsupportedActionErrorString protocol (cmd (opcode c))))) /\
  invoke (HTTPProtocol protocol b) (Call_mimetype url) = http_mimetype b url.
Proof.
  split; [|split; [|reflexivity]].
  - destruct c; simpl; split; intros Hc; try discriminate Hc; try reflexivity;
      try (repeat (destruct Hc as [Hc|Hc]; try discriminate Hc); contradiction);
      unfold http_unsupported; simpl; tauto.
  - destruct c; reflexivity.
Qed.

(** ** SessionData *)

Section SessionDataFacts.
Import SessionData.

Lemma subscript_value (key : QString) (m : gmap string string) :
  (subscript key m).1 = default ""%string (m !! key).
Proof. unfold subscript. destruct (m !! key); reflexivity. Qed.

Lemma subscript_lookup (key k : QString) (m : gmap string string) :
  (subscript key m).2 !! k =
  if String.eqb k key then Some (default ""%string (m !! key)) else m !! k.
Proof.
  unfold subscript. destruct (String.eqb_spec k key) as [->|Hne].
  - destruct (m !! key) eqn:E; simpl; [exact E | apply lookup_insert_eq].
  - destruct (m !! key) eqn:E; simpl; [reflexivity|].
    apply lookup_insert_ne. congruence.
Qed.

Lemma setIfEmpty_lookup (key value k : QString) (m : gmap string string) :
  setIfEmpty key value m !! k =
  if String.eqb k key then Some (merged (m !! key) value) else m !! k.
Proof.
  unfold setIfEmpty.
  pose proof (subscript_value key m) as Hv.
  pose proof (subscript_lookup key k m) as Hl.
  destruct (subscript key m) as [v m1]; simpl in Hv, Hl. subst v.
  destruct (String.eqb_spec k key) as [->|Hne].
  - unfold merged. destruct (m !! key) as [v|]; simpl.
    + destruct (isEmpty v); [apply lookup_insert_eq | exact Hl].
    + apply lookup_insert_eq.
  - destruct (isEmpty _); [|exact Hl].
    rewrite lookup_insert_ne by congruence. exact Hl.
Qed.

Lemma setIfEmpty_unfold (key value : QString) (m : gmap string string) :
  setIfEmpty key value m =
  if isEmpty (subscript key m).1 then <[key := value]> (subscript key m).2
  else (subscript key m).2.
Proof. unfold setIfEmpty. destruct (subscript key m); reflexivity. Qed.

(** The CacheDir step is a [setIfEmpty] that also creates the directory. *)
Lemma configDataFor_http (env : Environment) (d : SessionDataPrivate)
    (configData : gmap string string) (proto host : QString) :
  isHttpOrWebdav proto = true ->
  configDataFor env d configData proto host =
  (setIfEmpty "UserAgent" (defaultUserAgent env)
     (setIfEmpty "CacheDir" (genericCacheLocation env +:+ "/kio_http")
        (setIfEmpty "Charsets" (charsets (settled env d))
           (setIfEmpty "Languages" (language (settled env d))
              (setIfEmpty "Cookies"
                 (if useCookie (settled env d) then "true" else "false")
                 configData)))),
   settled env d,
   (if initDone d then [] else [KProtocolManager_reparseConfiguration])
     ++ (if isEmpty (default ""%string (configData !! "CacheDir"))
         then [QDir_mkpath (genericCacheLocation env +:+ "/kio_http")]
         else [])).
Proof.
  intros Hp. unfold configDataFor, settled. rewrite Hp.
  set (d1 := if initDone d then d else (reset env d).1).
  set (path := (genericCacheLocation env +:+ "/kio_http")%string).
  assert (Hd : (if negb (initDone d) then reset env d else (d, [])) =
               (d1, if initDone d then [] else [KProtocolManager_reparseConfiguration])).
  { subst d1. destruct (initDone d); reflexivity. }
  rewrite Hd. clear Hd.
  set (c3 := setIfEmpty "Charsets" _ _).
  assert (Hc3 : c3 !! "CacheDir"%string = configData !! "CacheDir"%string).
  { subst c3. rewrite !setIfEmpty_lookup. reflexivity. }
  rewrite (setIfEmpty_unfold "CacheDir" path c3).
  pose proof (subscript_value "CacheDir" c3) as Hv.
  destruct (subscript "CacheDir" c3) as [v c4]. simpl in Hv. simpl.
  rewrite Hc3 in Hv. rewrite <- Hv.
  destruct (isEmpty v); reflexivity.
Qed.

Lemma toLower_char_idemp (c : ascii) : toLower_char (toLower_char c) = toLower_char c.
Proof. destruct c as [[] [] [] [] [] [] [] []]; reflexivity. Qed.

Lemma startsWith_ci_toLower (prefix s : QString) :
  startsWith_ci prefix (toLower s) = startsWith_ci prefix s.
Proof.
  revert s. induction prefix as [|a p IH]; intros [|b r]; simpl; try reflexivity.
  rewrite toLower_char_idemp, IH. reflexivity.
Qed.

Lemma merged_idemp (old : option QString) (fallback : QString) :
  merged (Some (merged old fallback)) fallback = merged old fallback.
Proof.
  unfold merged. destruct old as [v|]; simpl.
  - destruct (isEmpty v) eqn:E; [|rewrite E; reflexivity].
    destruct (isEmpty fallback); reflexivity.
  - destruct (isEmpty fallback); reflexivity.
Qed.

Lemma append_nonempty (a b : QString) : isEmpty b = false -> isEmpty (a +:+ b) = false.
Proof. destruct a; simpl; [intros Hb; exact Hb | reflexivity]. Qed.

End SessionDataFacts.

(** The MetaData after a call for http or webdav, key by key. *)
Lemma lookup_after_configDataFor (env : SessionData.Environment)
    (d : SessionData.SessionDataPrivate) (configData : gmap string string)
    (proto host key : QString) :
  SessionData.isHttpOrWebdav proto = true ->
  (SessionData.configDataFor env d configData proto host).1.1 !! key =
  match fallbackOf env (settled env d) key with
  | Some fallback => Some (merged (configData !! key) fallback)
  | None => configData !! key
  end.
Proof.
  intros Hp. rewrite (configDataFor_http env d configData proto host Hp). simpl.
  rewrite !setIfEmpty_lookup. unfold fallbackOf.
  destruct (String.eqb_spec key "UserAgent") as [->|_]; [reflexivity|].
  destruct (String.eqb_spec key "CacheDir") as [->|_]; [reflexivity|].
  destruct (String.eqb_spec key "Charsets") as [->|_]; [reflexivity|].
  destruct (String.eqb_spec key "Languages") as [->|_]; [reflexivity|].
  destruct (String.eqb_spec key "Cookies") as [->|_]; reflexivity.
Qed.

(** X5: for a protocol that starts with "http" or "webdav", [configDataFor]
    returns the MetaData in which each of the keys Cookies, Languages,
    Charsets, CacheDir and UserAgent is present and holds the value supplied
    by the caller when that was not empty, and the session's value otherwise;
    every other key is as the caller gave it. *)
Theorem configDataFor_lookup (env : SessionData.Environment)
    (d : SessionData.SessionDataPrivate) (configData : gmap string string)
    (proto host key : QString) :
  SessionData.isHttpOrWebdav proto = true ->
  (SessionData.configDataFor env d configData proto host).1.1 !! key =
  match fallbackOf env (settled env d) key with
  | Some fallback => Some (merged (configData !! key) fallback)
  | None => configData !! key
  end.
Proof. exact (lookup_after_configDataFor env d configData proto host key). Qed.

Lemma configDataFor_lookup_witness :
  SessionData.isHttpOrWebdav "HTTPS" = true /\
  (SessionData.configDataFor sample_environment SessionData.SessionDataPrivate_new
     {["Languages"%string := "de"%string]} "HTTPS" "kde.org").1.1 !! "Languages"%string
  = Some "de"%string.
Proof.
  split; [reflexivity|].
  exact (configDataFor_lookup sample_environment SessionData.SessionDataPrivate_new
           {["Languages"%string := "de"%string]} "HTTPS" "kde.org" "Languages" eq_refl).
Defined.

(** The outside calls of a call, in order. *)
Lemma effects_of_configDataFor (env : SessionData.Environment)
    (d : SessionData.SessionDataPrivate) (configData : gmap string string)
    (proto host : QString) :
  (SessionData.configDataFor env d configData proto host).2 =
  if SessionData.isHttpOrWebdav proto then
    (if SessionData.initDone d then []
     else [SessionData.KProtocolManager_reparseConfiguration])
    ++ (if SessionData.isEmpty (default ""%string (configData !! "CacheDir"%string))
        then [SessionData.QDir_mkpath
                (SessionData.genericCacheLocation env +:+ "/kio_http")]
        else [])
  else [].
Proof.
  destruct (SessionData.isHttpOrWebdav proto) eqn:Hp.
  - rewrite (configDataFor_http env d configData proto host Hp). reflexivity.
  - unfold SessionData.configDataFor. rewrite Hp. reflexivity.
Qed.

(** X6: the outside calls of [configDataFor].  For a protocol that does not
    start with "http" or "webdav" there is none.  Otherwise
    [KProtocolManager::reparseConfiguration] is called (through [reset])
    exactly when the object was not initialised yet, and the cache directory
    is created exactly when the caller supplied no CacheDir or an empty
    one. *)
Theorem configDataFor_effects (env : SessionData.Environment)
    (d : SessionData.SessionDataPrivate) (configData : gmap string string)
    (proto host : QString) :
  (SessionData.configDataFor env d configData proto host).2 =
  if SessionData.isHttpOrWebdav proto then
    (if SessionData.initDone d then []
     else [SessionData.KProtocolManager_reparseConfiguration])
    ++ (if SessionData.isEmpty (default ""%string (configData !! "CacheDir"%string))
        then [SessionData.QDir_mkpath
                (SessionData.genericCacheLocation env +:+ "/kio_http")]
        else [])
  else [].
Proof. exact (effects_of_configDataFor env d configData proto host). Qed.

(** X7: the session's settings are read from the environment once.  After a
    call for http or webdav the object is initialised with the cookie
    policy, languages and lower-cased locale charset of that call's
    environment (or keeps what it had when it was initialised before), and
    no later call, for whatever protocol, MetaData or environment, changes
    them or calls [KProtocolManager::reparseConfiguration] again. *)
Theorem session_settings_read_once (env1 env2 : SessionData.Environment)
    (d : SessionData.SessionDataPrivate) (configData1 configData2 : gmap string string)
    (proto1 proto2 host1 host2 : QString) :
  SessionData.isHttpOrWebdav proto1 = true ->
  (SessionData.configDataFor env1 d configData1 proto1 host1).1.2 = settled env1 d /\
  SessionData.initDone (settled env1 d) = true /\
  (SessionData.initDone d = false ->
   settled env1 d =
   SessionData.mkSessionDataPrivate true (default true (SessionData.cookiesEntry env1))
     (SessionData.toLower (SessionData.codecForLocaleName env1))
     (SessionData.acceptLanguagesHeader env1)) /\
  (SessionData.configDataFor env2 (settled env1 d) configData2 proto2 host2).1.2
    = settled env1 d /\
  ~ In SessionData.KProtocolManager_reparseConfiguration
      (SessionData.configDataFor env2 (settled env1 d) configData2 proto2 host2).2.
Proof.
  intros Hp.
  assert (Hinit : SessionData.initDone (settled env1 d) = true).
  { unfold settled. destruct (SessionData.initDone d) eqn:E; [exact E | reflexivity]. }
  split; [rewrite (configDataFor_http env1 d configData1 proto1 host1 Hp); reflexivity|].
  split; [exact Hinit|].
  split; [intros Hd; unfold settled; rewrite Hd; reflexivity|].
  rewrite effects_of_configDataFor.
  destruct (SessionData.isHttpOrWebdav proto2) eqn:Hp2.
  - rewrite (configDataFor_http env2 _ configData2 proto2 host2 Hp2). simpl.
    unfold settled at 1. rewrite Hinit. split; [reflexivity|].
    simpl. destruct (SessionData.isEmpty _); simpl; intuition discriminate.
  - unfold SessionData.configDataFor. rewrite Hp2. simpl. split; [reflexivity | tauto].
Qed.

Lemma session_settings_read_once_witness :
  SessionData.isHttpOrWebdav "webdavs" = true /\
  SessionData.language
    (SessionData.configDataFor
       (SessionData.mkEnvironment (Some false) "fr" "KOI8-R" "/tmp" "agent")
       (settled sample_environment SessionData.SessionDataPrivate_new)
       ∅ "http" "kde.org").1.2 = "en-US"%string.
Proof.
  split; [reflexivity|].
  exact (f_equal SessionData.language
           (proj1 (proj2 (proj2 (proj2
              (session_settings_read_once sample_environment
                 (SessionData.mkEnvironment (Some false) "fr" "KOI8-R" "/tmp" "agent")
                 SessionData.SessionDataPrivate_new ∅ ∅ "webdavs" "http"
                 "kde.org" "kde.org" eq_refl)))))).
Defined.

(** X8: [configDataFor] is idempotent: called again with the same
    environment on what it returned, it returns the same MetaData and private
    data and makes no outside call. *)
Theorem configDataFor_idempotent (env : SessionData.Environment)
    (d : SessionData.SessionDataPrivate) (configData : gmap string string)
    (proto host : QString) :
  SessionData.configDataFor env
    (SessionData.configDataFor env d configData proto host).1.2
    (SessionData.configDataFor env d configData proto host).1.1 proto host =
  ((SessionData.configDataFor env d configData proto host).1.1,
   (SessionData.configDataFor env d configData proto host).1.2, []).
Proof.
  destruct (SessionData.isHttpOrWebdav proto) eqn:Hp.
  2: { unfold SessionData.configDataFor. rewrite Hp. reflexivity. }
  assert (Hinit : SessionData.initDone (settled env d) = true).
  { unfold settled. destruct (SessionData.initDone d) eqn:E; [exact E | reflexivity]. }
  assert (Hset : settled env (settled env d) = settled env d).
  { unfold settled at 1. rewrite Hinit. reflexivity. }
  pose proof (lookup_after_configDataFor env d configData proto host) as Hl1.
  pose proof (effects_of_configDataFor env (settled env d)
                (SessionData.configDataFor env d configData proto host).1.1 proto host) as He.
  pose proof (fun key => lookup_after_configDataFor env (settled env d)
                (SessionData.configDataFor env d configData proto host).1.1
                proto host key Hp) as Hl2.
  assert (Hd1 : (SessionData.configDataFor env d configData proto host).1.2 = settled env d).
  { rewrite (configDataFor_http env d configData proto host Hp). reflexivity. }
  rewrite Hd1.
  set (c1 := (SessionData.configDataFor env d configData proto host).1.1) in *.
  assert (Hd2 : (SessionData.configDataFor env (settled env d) c1 proto host).1.2
                = settled env d).
  { rewrite (configDataFor_http env _ c1 proto host Hp). simpl. exact Hset. }
  destruct (SessionData.configDataFor env (settled env d) c1 proto host)
    as [[c2 d2] eff2]. simpl in *. subst d2.
  assert (Hc : c2 = c1).
  { apply map_eq. intros key. rewrite Hl2, Hset.
    destruct (fallbackOf env (settled env d) key) as [fallback|] eqn:Hf; [|reflexivity].
    rewrite (Hl1 key Hp), Hf. rewrite merged_idemp. reflexivity. }
  subst c2. f_equal.
  rewrite He, Hp, Hinit. simpl.
  rewrite (Hl1 "CacheDir"%string Hp). simpl.
  unfold merged.
  destruct (configData !! "CacheDir"%string) as [v|]; simpl.
  - destruct (SessionData.isEmpty v) eqn:Ev; simpl; [|rewrite Ev; reflexivity].
    rewrite append_nonempty; reflexivity.
  - rewrite append_nonempty; reflexivity.
Qed.

(** X9: the protocol counts only up to case and the host not at all:
    [configDataFor] returns the same for a protocol and for its lower-case
    form, with any host. *)
Theorem configDataFor_protocol_case (env : SessionData.Environment)
    (d : SessionData.SessionDataPrivate) (configData : gmap string string)
    (proto host host' : QString) :
  SessionData.configDataFor env d configData (SessionData.toLower proto) host' =
  SessionData.configDataFor env d configData proto host.
Proof.
  unfold SessionData.configDataFor, SessionData.isHttpOrWebdav.
  rewrite !startsWith_ci_toLower. reflexivity.
Qed.

(** ** KFileFilter *)

Section KFileFilterFacts.
Import KFileFilter.

Lemma split_not_nil (sep : ascii) (s : list ascii) : split sep s <> [].
Proof.
  induction s as [|c rest IH]; simpl; [discriminate|].
  destruct (Ascii.eqb c sep); [discriminate|].
  destruct (split sep rest); discriminate.
Qed.

Lemma split_no_sep (sep : ascii) (s : list ascii) : sep ∉ s -> split sep s = [s].
Proof.
  induction s as [|c rest IH]; intros Hs; simpl; [reflexivity|].
  apply not_elem_of_cons in Hs as [Hc Hrest].
  destruct (Ascii.eqb_spec c sep) as [->|_]; [contradiction|].
  rewrite (IH Hrest). reflexivity.
Qed.

Lemma split_app_sep (sep : ascii) (w rest : list ascii) :
  sep ∉ w -> split sep (w ++ sep :: rest) = w :: split sep rest.
Proof.
  induction w as [|c w IH]; intros Hw; simpl.
  - rewrite Ascii.eqb_refl. reflexivity.
  - apply not_elem_of_cons in Hw as [Hc Hw].
    destruct (Ascii.eqb_spec c sep) as [->|_]; [contradiction|].
    rewrite (IH Hw). reflexivity.
Qed.

Lemma join_cons (sep : ascii) (part : list ascii) (rest : list (list ascii)) :
  join sep (part :: rest) =
  part ++ match rest with [] => [] | _ :: _ => sep :: join sep rest end.
Proof. destruct rest; simpl; [rewrite app_nil_r|]; reflexivity. Qed.

Lemma split_join (sep : ascii) (l : list (list ascii)) :
  l <> [] -> Forall (fun part => sep ∉ part) l -> split sep (join sep l) = l.
Proof.
  induction l as [|part rest IH]; intros Hne Hall; [contradiction|].
  apply Forall_cons in Hall as [Hpart Hrest].
  rewrite join_cons. destruct rest as [|part' rest'].
  - rewrite app_nil_r. apply split_no_sep, Hpart.
  - rewrite (split_app_sep sep part _ Hpart), IH; [reflexivity|discriminate|exact Hrest].
Qed.

Lemma split_parts (sep : ascii) (s part : list ascii) :
  In part (split sep s) -> sep ∉ part.
Proof.
  revert part. induction s as [|c rest IH]; intros part; simpl.
  - intros [<-|[]]. apply not_elem_of_nil.
  - destruct (Ascii.eqb_spec c sep) as [->|Hne].
    + intros [<-|Hin]; [apply not_elem_of_nil | apply IH, Hin].
    + pose proof (split_not_nil sep rest) as Hnn.
      destruct (split sep rest) as [|p ps]; [contradiction|].
      intros [<-|Hin].
      * apply not_elem_of_cons. split; [congruence|]. apply IH. left. reflexivity.
      * apply IH. right. exact Hin.
Qed.

Lemma elem_of_join (sep c : ascii) (l : list (list ascii)) :
  c ∈ join sep l -> c = sep \/ exists part, In part l /\ c ∈ part.
Proof.
  induction l as [|part rest IH]; intros Hc.
  - simpl in Hc. apply elem_of_nil in Hc. contradiction.
  - rewrite join_cons in Hc. apply elem_of_app in Hc as [Hc|Hc].
    + right. exists part. split; [left; reflexivity | exact Hc].
    + destruct rest as [|part' rest']; [apply elem_of_nil in Hc; contradiction|].
      apply elem_of_cons in Hc as [->|Hc]; [left; reflexivity|].
      destruct (IH Hc) as [->|(p & Hp & Hcp)]; [left; reflexivity|].
      right. exists p. split; [right; exact Hp | exact Hcp].
Qed.

Lemma indexOf_ge (c : ascii) (s : list ascii) : -1 <= indexOf c s.
Proof.
  induction s as [|a rest IH]; simpl; [lia|].
  destruct (Ascii.eqb a c); [lia|].
  destruct (Z.ltb_spec (indexOf c rest) 0); lia.
Qed.

Lemma indexOf_absent (c : ascii) (s : list ascii) : c ∉ s -> indexOf c s = -1.
Proof.
  induction s as [|a rest IH]; intros Hs; simpl; [reflexivity|].
  apply not_elem_of_cons in Hs as [Hc Hrest].
  destruct (Ascii.eqb_spec a c) as [->|_]; [contradiction|].
  rewrite (IH Hrest). reflexivity.
Qed.

Lemma indexOf_here (c : ascii) (w rest : list ascii) :
  c ∉ w -> indexOf c (w ++ c :: rest) = Z.of_nat (length w).
Proof.
  induction w as [|a w IH]; intros Hw; simpl.
  - rewrite Ascii.eqb_refl. reflexivity.
  - apply not_elem_of_cons in Hw as [Hc Hw].
    destruct (Ascii.eqb_spec a c) as [->|_]; [contradiction|].
    rewrite (IH Hw). destruct (Z.ltb_spec (Z.of_nat (length w)) 0); lia.
Qed.

(** A found position splits the string at the first occurrence. *)
Lemma indexOf_found (c : ascii) (s : list ascii) :
  0 <= indexOf c s ->
  exists w rest, s = w ++ c :: rest /\ (c ∉ w) /\ indexOf c s = Z.of_nat (length w).
Proof.
  induction s as [|a s IH]; simpl; [lia|].
  destruct (Ascii.eqb_spec a c) as [->|Hne].
  - intros _. exists [], s. split; [reflexivity|]. split; [apply not_elem_of_nil | reflexivity].
  - destruct (Z.ltb_spec (indexOf c s) 0) as [Hlt|Hge]; [lia|]. intros _.
    destruct (IH Hge) as (w & rest & -> & Hw & Hi).
    exists (a :: w), rest. split; [reflexivity|].
    split; [apply not_elem_of_cons; split; [congruence | exact Hw]|].
    rewrite Hi. simpl length. lia.
Qed.

Lemma unescape_no_slash (s : list ascii) : "/"%char ∉ s -> unescape s = s.
Proof.
  induction s as [|a rest IH]; intros Hs; [reflexivity|].
  apply not_elem_of_cons in Hs as [Ha Hrest].
  simpl. destruct rest as [|b rest']; [reflexivity|].
  destruct (Ascii.eqb_spec b "/") as [->|_].
  - exfalso. apply Hrest. left.
  - rewrite andb_false_r. rewrite (IH Hrest). reflexivity.
Qed.

Lemma unescape_cons (a : ascii) (rest : list ascii) :
  startsWith ["\"; "/"]%char (a :: rest) = false ->
  unescape (a :: rest) = a :: unescape rest.
Proof.
  intros Hp. destruct rest as [|b rest']; [reflexivity|].
  cbn [unescape].
  destruct (Ascii.eqb_spec a "\") as [->|_]; [|reflexivity].
  destruct (Ascii.eqb_spec b "/") as [->|_]; [|reflexivity].
  discriminate Hp.
Qed.

Lemma search_None (s : list ascii) :
  search ["\"; "/"]%char s = None -> unescape s = s.
Proof.
  induction s as [|a rest IH]; intros Hs; [reflexivity|].
  cbn [search] in Hs.
  destruct (startsWith ["\"; "/"]%char (a :: rest)) eqn:Hp; [discriminate|].
  rewrite (unescape_cons a rest Hp).
  destruct (search ["\"; "/"]%char rest); [discriminate|].
  rewrite IH; reflexivity.
Qed.

Lemma search_Some (s : list ascii) (i : nat) :
  search ["\"; "/"]%char s = Some i ->
  exists w rest, s = w ++ "\"%char :: "/"%char :: rest /\ length w = i /\
                 unescape s = w ++ "/"%char :: unescape rest.
Proof.
  revert i. induction s as [|a rest IH]; intros i Hs; [discriminate|].
  cbn [search] in Hs.
  destruct (startsWith ["\"; "/"]%char (a :: rest)) eqn:Hp.
  - inversion Hs; subst i. cbn [startsWith] in Hp.
    destruct rest as [|b rest']; [rewrite andb_false_r in Hp; discriminate|].
    rewrite andb_true_r in Hp. apply andb_true_iff in Hp as [Ha Hb].
    apply Ascii.eqb_eq in Ha, Hb. subst a b.
    exists [], rest'. split; [reflexivity|]. split; reflexivity.
  - destruct (search ["\"; "/"]%char rest) as [j|] eqn:Hj; [|discriminate].
    inversion Hs; subst i.
    destruct (IH j eq_refl) as (w & rest' & -> & Hlen & Hun).
    exists (a :: w), rest'. split; [reflexivity|]. split; [simpl; lia|].
    rewrite (unescape_cons a _ Hp), Hun. reflexivity.
Qed.

(** The loop, started behind [pre], leaves [pre] alone and unescapes the
    rest. *)
Lemma removeEscapes_from (fuel : nat) (pre suf : list ascii) :
  (length suf < fuel)%nat ->
  removeEscapes fuel (Z.of_nat (length pre)) (pre ++ suf) = pre ++ unescape suf.
Proof.
  revert pre suf. induction fuel as [|fuel IH]; intros pre suf Hfuel; [lia|].
  cbn [removeEscapes]. unfold indexOfFrom.
  rewrite Nat2Z.id, drop_app_length.
  destruct (search ["\"; "/"]%char suf) as [i|] eqn:Hs.
  - destruct (search_Some suf i Hs) as (w & rest & -> & Hlen & Hun).
    destruct (Z.eqb_spec (Z.of_nat (length pre) + Z.of_nat i) (-1)) as [Heq|_]; [lia|].
    assert (Hrem : remove (Z.of_nat (length pre) + Z.of_nat i) 1
                     (pre ++ w ++ "\"%char :: "/"%char :: rest)
                   = (pre ++ w ++ ["/"%char]) ++ rest).
    { unfold remove.
      replace (Z.to_nat (Z.of_nat (length pre) + Z.of_nat i))
        with (length (pre ++ w)) by (rewrite length_app; lia).
      replace (Z.to_nat (Z.of_nat (length pre) + Z.of_nat i + 1))
        with (length ((pre ++ w) ++ ["\"%char])) by (rewrite !length_app; simpl; lia).
      rewrite (app_assoc pre w).
      rewrite take_app_length.
      replace ((pre ++ w) ++ "\"%char :: "/"%char :: rest)
        with (((pre ++ w) ++ ["\"%char]) ++ "/"%char :: rest)
        by (rewrite <- !app_assoc; reflexivity).
      rewrite drop_app_length. rewrite <- !app_assoc. reflexivity. }
    rewrite Hrem.
    replace (Z.of_nat (length pre) + Z.of_nat i + 1)
      with (Z.of_nat (length (pre ++ w ++ ["/"%char])))
      by (rewrite !length_app; simpl; lia).
    rewrite IH.
    + rewrite Hun, <- !app_assoc. reflexivity.
    + rewrite length_app in Hfuel. simpl in Hfuel. lia.
  - simpl. rewrite (search_None suf Hs). reflexivity.
Qed.

(** The loop is left within the rounds given: one round for each escaped
    '/' and one for the test that fails. *)
Lemma removeEscapes_exit_from (fuel : nat) (pre suf : list ascii) :
  (length suf < fuel)%nat ->
  removeEscapes_exit fuel (Z.of_nat (length pre)) (pre ++ suf)
  = Some (pre ++ unescape suf).
Proof.
  revert pre suf. induction fuel as [|fuel IH]; intros pre suf Hfuel; [lia|].
  cbn [removeEscapes_exit]. unfold indexOfFrom.
  rewrite Nat2Z.id, drop_app_length.
  destruct (search ["\"; "/"]%char suf) as [i|] eqn:Hs.
  - destruct (search_Some suf i Hs) as (w & rest & -> & Hlen & Hun).
    destruct (Z.eqb_spec (Z.of_nat (length pre) + Z.of_nat i) (-1)) as [Heq|_]; [lia|].
    assert (Hrem : remove (Z.of_nat (length pre) + Z.of_nat i) 1
                     (pre ++ w ++ "\"%char :: "/"%char :: rest)
                   = (pre ++ w ++ ["/"%char]) ++ rest).
    { unfold remove.
      replace (Z.to_nat (Z.of_nat (length pre) + Z.of_nat i))
        with (length (pre ++ w)) by (rewrite length_app; lia).
      replace (Z.to_nat (Z.of_nat (length pre) + Z.of_nat i + 1))
        with (length ((pre ++ w) ++ ["\"%char])) by (rewrite !length_app; simpl; lia).
      rewrite (app_assoc pre w).
      rewrite take_app_length.
      replace ((pre ++ w) ++ "\"%char :: "/"%char :: rest)
        with (((pre ++ w) ++ ["\"%char]) ++ "/"%char :: rest)
        by (rewrite <- !app_assoc; reflexivity).
      rewrite drop_app_length. rewrite <- !app_assoc. reflexivity. }
    rewrite Hrem.
    replace (Z.of_nat (length pre) + Z.of_nat i + 1)
      with (Z.of_nat (length (pre ++ w ++ ["/"%char])))
      by (rewrite !length_app; simpl; lia).
    rewrite IH.
    + rewrite Hun, <- !app_assoc. reflexivity.
    + rewrite length_app in Hfuel. simpl in Hfuel. lia.
  - simpl. rewrite (search_None suf Hs). reflexivity.
Qed.

Lemma removeEscapes_all (s : list ascii) :
  removeEscapes (S (length s)) 0 s = unescape s.
Proof. exact (removeEscapes_from (S (length s)) [] s (Nat.lt_succ_diag_r _)). Qed.

End KFileFilterFacts.

(** X10: the escape-removing loop of [fromFilterString] terminates: given
    more rounds than the string has characters, as [fromFilterString] gives
    it, the loop is left through its test, and the string it leaves is the
    one in which each backslash that stood directly before a '/' is
    dropped, scanning from the left, and every other character is kept. *)
Theorem removeEscapes_unescape (fuel : nat) (s : list ascii) :
  (length s < fuel)%nat ->
  KFileFilter.removeEscapes_exit fuel 0 s = Some (unescape s) /\
  KFileFilter.removeEscapes fuel 0 s = unescape s /\
  KFileFilter.removeEscapes_exit (S (length s)) 0 s =
    Some (KFileFilter.removeEscapes (S (length s)) 0 s).
Proof.
  intros Hfuel.
  split; [exact (removeEscapes_exit_from fuel [] s Hfuel)|].
  split; [exact (removeEscapes_from fuel [] s Hfuel)|].
  rewrite removeEscapes_all.
  exact (removeEscapes_exit_from (S (length s)) [] s (Nat.lt_succ_diag_r _)).
Qed.

Lemma removeEscapes_unescape_witness :
  (length (list_ascii_of_string "a\/b") < 5)%nat /\
  KFileFilter.removeEscapes_exit 5 0 (list_ascii_of_string "a\/b")
  = Some (list_ascii_of_string "a/b").
Proof.
  split; [simpl; lia|].
  exact (proj1 (removeEscapes_unescape 5 (list_ascii_of_string "a\/b") ltac:(simpl; lia))).
Defined.

Section KFileFilterParsing.
Import KFileFilter.
Variable comment : list ascii -> list ascii.

Lemma split_covers (sep c : ascii) (s : list ascii) :
  c ∈ s -> c <> sep -> exists part, In part (split sep s) /\ c ∈ part.
Proof.
  induction s as [|a rest IH]; intros Hc Hne; [apply elem_of_nil in Hc; contradiction|].
  simpl. pose proof (split_not_nil sep rest) as Hnn.
  destruct (Ascii.eqb_spec a sep) as [->|Ha].
  - apply elem_of_cons in Hc as [->|Hc]; [contradiction|].
    destruct (IH Hc Hne) as (part & Hin & Hp).
    exists part. split; [right; exact Hin | exact Hp].
  - destruct (split sep rest) as [|p ps] eqn:Hsp; [contradiction|].
    apply elem_of_cons in Hc as [->|Hc].
    + exists (a :: p). split; [left; reflexivity | left].
    + destruct (IH Hc Hne) as (part & [<-|Hin] & Hp).
      * exists (a :: p). split; [left; reflexivity | right; exact Hp].
      * exists part. split; [right; exact Hin | exact Hp].
Qed.

Lemma filter_nonempty_id (l : list (list ascii)) :
  Forall (fun part => part <> []) l ->
  List.filter (fun part => negb (isEmpty part)) l = l.
Proof.
  induction 1 as [|part l Hpart _ IH]; simpl; [reflexivity|].
  destruct part; [contradiction|]. simpl. rewrite IH. reflexivity.
Qed.

Lemma KFileFilter_3_fields (label : list ascii) (filePatterns mimePatterns : list (list ascii)) :
  m_filePatterns (KFileFilter_3 comment label filePatterns mimePatterns) = filePatterns /\
  m_mimePatterns (KFileFilter_3 comment label filePatterns mimePatterns) = mimePatterns.
Proof. unfold KFileFilter_3. destruct (isEmpty label); split; reflexivity. Qed.

(** A writable filter is read back from its line. *)
Lemma fromFilterLine_toFilterString (f : KFileFilter) :
  writable f ->
  fromFilterLine comment (toFilterString f) = f /\
  ("/"%char ∉ toFilterString f) /\ ("010"%char ∉ toFilterString f).
Proof.
  destruct f as [label patterns mimes].
  intros (Hm & Hl & Hp & Hls & Hln & Hall). simpl in *. subst mimes.
  assert (Hlabel : isEmpty label = false) by (destruct label; [contradiction|reflexivity]).
  unfold toFilterString. simpl. rewrite Hlabel. simpl.
  assert (Hpat : forall p, In p patterns ->
            (" "%char ∉ p) /\ ("|"%char ∉ p) /\ ("/"%char ∉ p) /\ ("010"%char ∉ p)).
  { intros p Hin. rewrite Forall_forall in Hall. apply Hall, list_elem_of_In, Hin. }
  assert (Hbar : "|"%char ∉ join " " patterns).
  { intros Hin. apply elem_of_join in Hin as [Heq|(p & Hp' & Hcp)]; [discriminate|].
    destruct (Hpat p Hp') as (_ & Hb & _). exact (Hb Hcp). }
  split; [|split].
  - unfold fromFilterLine. rewrite (indexOf_here "|" _ _ Hbar).
    destruct (Z.eqb_spec (Z.of_nat (length (join " " patterns))) (-1)) as [Heq|_]; [lia|].
    simpl negb. cbv iota.
    unfold mid, left.
    destruct (Z.ltb_spec (Z.of_nat (length (join " " patterns))) 0) as [Hlt|_]; [lia|].
    rewrite Nat2Z.id.
    replace (Z.to_nat (Z.of_nat (length (join " " patterns)) + 1))
      with (length (join " " patterns ++ ["|"%char])) by (rewrite length_app; simpl; lia).
    rewrite take_app_length.
    replace (join " " patterns ++ "|"%char :: label)
      with ((join " " patterns ++ ["|"%char]) ++ label)
      by (rewrite <- app_assoc; reflexivity).
    rewrite drop_app_length.
    rewrite split_join; [|exact Hp|].
    + unfold KFileFilter_3. rewrite Hlabel. reflexivity.
    + eapply Forall_impl; [exact Hall|]. intros p Hpp. apply Hpp.
  - intros Hin. apply elem_of_app in Hin as [Hin|Hin].
    + apply elem_of_join in Hin as [Heq|(p & Hp' & Hcp)]; [discriminate|].
      destruct (Hpat p Hp') as (_ & _ & Hs & _). exact (Hs Hcp).
    + apply elem_of_cons in Hin as [Heq|Hin]; [discriminate | contradiction].
  - intros Hin. apply elem_of_app in Hin as [Hin|Hin].
    + apply elem_of_join in Hin as [Heq|(p & Hp' & Hcp)]; [discriminate|].
      destruct (Hpat p Hp') as (_ & _ & _ & Hn). exact (Hn Hcp).
    + apply elem_of_cons in Hin as [Heq|Hin]; [discriminate | contradiction].
Qed.

Lemma fromFilterString_not_nil (filterString : list ascii) :
  fromFilterString comment filterString <> [].
Proof.
  unfold fromFilterString.
  destruct (Z.ltb_spec 0 (indexOf "/" filterString)) as [Hpos|_]; simpl andb.
  - destruct (negb _).
    + destruct (indexOf_found "/" filterString ltac:(lia)) as (w & rest & Hs & _ & _).
      assert (Hin : "/"%char ∈ filterString).
      { rewrite Hs. apply elem_of_app. right. left. }
      destruct (split_covers " " "/" filterString Hin ltac:(discriminate))
        as (part & Hpart & Hc).
      intros Hnil. apply map_eq_nil in Hnil.
      assert (Hf : In part (split_SkipEmptyParts " " filterString)).
      { apply filter_In. split; [exact Hpart|].
        destruct part; [apply elem_of_nil in Hc; contradiction | reflexivity]. }
      rewrite Hnil in Hf. exact Hf.
    + intros Hnil. apply map_eq_nil in Hnil. exact (split_not_nil _ _ Hnil).
  - intros Hnil. apply map_eq_nil in Hnil. exact (split_not_nil _ _ Hnil).
Qed.

End KFileFilterParsing.

(** X11: [fromFilterString] never returns an empty list, whatever the
    string: an empty string gives one filter with the single empty pattern.
    (So the test [filters.isEmpty()] of a caller never succeeds.) *)
Theorem fromFilterString_not_empty (comment : list ascii -> list ascii)
    (filterString : list ascii) :
  KFileFilter.fromFilterString comment filterString <> [] /\
  KFileFilter.fromFilterString comment [] = [KFileFilter.mkKFileFilter [] [[]] []].
Proof.
  split; [apply fromFilterString_not_nil | reflexivity].
Qed.

(** X12: writing pattern filters and reading them back gives the same
    filters.  For a non-empty list of filters that each have a label, at
    least one pattern and no MIME pattern, with no '/' or newline in the
    label and no space, '|', '/' or newline in a pattern, [fromFilterString]
    of their [toFilterString]s joined by newlines is the list itself. *)
Theorem pattern_filters_round_trip (comment : list ascii -> list ascii)
    (filters : list KFileFilter.KFileFilter) :
  filters <> [] -> Forall writable filters ->
  KFileFilter.fromFilterString comment
    (KFileFilter.join "010" (List.map KFileFilter.toFilterString filters)) = filters.
Proof.
  intros Hne Hall.
  set (lines := List.map KFileFilter.toFilterString filters).
  assert (Hlines : Forall (fun line => ("/"%char ∉ line) /\ ("010"%char ∉ line)) lines).
  { subst lines. apply Forall_map. eapply Forall_impl; [exact Hall|].
    intros f Hf. apply (fromFilterLine_toFilterString comment f Hf). }
  assert (Hslash : "/"%char ∉ KFileFilter.join "010" lines).
  { intros Hin. apply elem_of_join in Hin as [Heq|(line & Hl & Hc)]; [discriminate|].
    rewrite Forall_forall in Hlines.
    apply (proj1 (Hlines line (proj2 (list_elem_of_In _ _) Hl))), Hc. }
  unfold KFileFilter.fromFilterString.
  rewrite (indexOf_absent _ _ Hslash). simpl andb. cbv iota.
  rewrite removeEscapes_all.
  rewrite (unescape_no_slash _ Hslash).
  rewrite split_join.
  - subst lines. rewrite List.map_map.
    clear Hne Hlines Hslash. induction Hall as [|f fs Hf _ IH]; [reflexivity|].
    simpl. rewrite IH. rewrite (proj1 (fromFilterLine_toFilterString comment f Hf)).
    reflexivity.
  - subst lines. destruct filters; [contradiction | discriminate].
  - eapply Forall_impl; [exact Hlines|]. intros line Hl. apply Hl.
Qed.

(** X13: MIME types written with spaces between them are read back as one
    MIME filter each.  If no type is empty or contains a space, and the
    first '/' of the first type is neither its first character nor preceded
    by a backslash, [fromFilterString] of the joined types is the list of
    their MIME filters; and the filter string of a MIME filter is its
    type. *)
Theorem mime_filters_round_trip (comment : list ascii -> list ascii)
    (first : list ascii) (rest : list (list ascii)) :
  0 < KFileFilter.indexOf "/" first ->
  KFileFilter.at_ first (KFileFilter.indexOf "/" first - 1) <> "\"%char ->
  Forall (fun type => type <> [] /\ (" "%char ∉ type)) (first :: rest) ->
  KFileFilter.fromFilterString comment (KFileFilter.join " " (first :: rest)) =
    List.map (KFileFilter.KFileFilter_1 comment) (first :: rest) /\
  KFileFilter.toFilterString (KFileFilter.KFileFilter_1 comment first) = first.
Proof.
  intros Hpos Hesc Hall. split; [|reflexivity].
  destruct (indexOf_found "/" first ltac:(lia)) as (w & r & Hfirst & Hw & Hidx).
  rewrite join_cons.
  set (tail := match rest with [] => [] | _ :: _ => _ end).
  assert (Hi : KFileFilter.indexOf "/" (first ++ tail) = KFileFilter.indexOf "/" first).
  { rewrite Hidx, Hfirst, <- app_assoc. simpl. apply indexOf_here, Hw. }
  assert (Hat : KFileFilter.at_ (first ++ tail) (KFileFilter.indexOf "/" first - 1)
                = KFileFilter.at_ first (KFileFilter.indexOf "/" first - 1)).
  { unfold KFileFilter.at_. apply app_nth1.
    rewrite Hidx, Hfirst, length_app. simpl. lia. }
  unfold KFileFilter.fromFilterString. rewrite Hi, Hat.
  destruct (Z.ltb_spec 0 (KFileFilter.indexOf "/" first)) as [_|Hle]; [|lia].
  destruct (Ascii.eqb_spec (KFileFilter.at_ first (KFileFilter.indexOf "/" first - 1)) "\")
    as [Heq|_]; [contradiction|].
  simpl andb. cbv iota. f_equal.
  unfold KFileFilter.split_SkipEmptyParts. subst tail. rewrite <- join_cons.
  rewrite split_join.
  - apply filter_nonempty_id. eapply Forall_impl; [exact Hall|]. intros t Ht. apply Ht.
  - discriminate.
  - eapply Forall_impl; [exact Hall|]. intros t Ht. apply Ht.
Qed.

(** X14: the filters that [fromFilterString] returns are of one of two
    kinds and never mixed: a MIME filter, with no file pattern, one MIME
    type that is not empty and has no space, and the comment of that type as
    its label; or a pattern filter, with no MIME pattern and at least one
    file pattern, none of which contains a space. *)
Theorem fromFilterString_kinds (comment : list ascii -> list ascii)
    (filterString : list ascii) (f : KFileFilter.KFileFilter) :
  In f (KFileFilter.fromFilterString comment filterString) ->
  (KFileFilter.m_filePatterns f = [] /\
   exists type, KFileFilter.m_mimePatterns f = [type] /\ type <> [] /\
                (" "%char ∉ type) /\ KFileFilter.m_label f = comment type) \/
  (KFileFilter.m_mimePatterns f = [] /\ KFileFilter.m_filePatterns f <> [] /\
   Forall (fun pattern => " "%char ∉ pattern) (KFileFilter.m_filePatterns f)).
Proof.
  unfold KFileFilter.fromFilterString.
  destruct (_ && _).
  - intros Hin. apply in_map_iff in Hin as (type & <- & Ht).
    apply filter_In in Ht as [Hpart Hne]. left. split; [reflexivity|].
    exists type. split; [reflexivity|].
    split; [destruct type; [discriminate Hne | discriminate]|].
    split; [exact (split_parts _ _ _ Hpart) | reflexivity].
  - intros Hin. apply in_map_iff in Hin as (line & <- & _). right.
    unfold KFileFilter.fromFilterLine.
    destruct (negb _);
      match goal with
      | |- context [KFileFilter.KFileFilter_3 comment ?l ?p ?m] =>
          destruct (KFileFilter_3_fields comment l p m) as [-> ->]
      end;
      (split; [reflexivity|]); (split; [apply split_not_nil|]);
      apply Forall_forall; intros p Hp;
      exact (split_parts _ _ _ (proj1 (list_elem_of_In _ _) Hp)).
Qed.

Lemma fromFilterString_kinds_witness :
  In (KFileFilter.mkKFileFilter (list_ascii_of_string "Sources")
        [list_ascii_of_string "*.cpp"; list_ascii_of_string "*.h"] [])
     (KFileFilter.fromFilterString sample_comment
        (list_ascii_of_string "*.cpp *.h|Sources")) /\
  KFileFilter.m_mimePatterns
    (KFileFilter.mkKFileFilter (list_ascii_of_string "Sources")
       [list_ascii_of_string "*.cpp"; list_ascii_of_string "*.h"] []) = [].
Proof.
  assert (Hin : In (KFileFilter.mkKFileFilter (list_ascii_of_string "Sources")
                      [list_ascii_of_string "*.cpp"; list_ascii_of_string "*.h"] [])
                   (KFileFilter.fromFilterString sample_comment
                      (list_ascii_of_string "*.cpp *.h|Sources")))
    by (left; reflexivity).
  split; [exact Hin|].
  destruct (fromFilterString_kinds sample_comment _ _ Hin) as [(Hfp & _)|(Hm & _)].
  - discriminate Hfp.
  - exact Hm.
Defined.

(** ** KFileFilterCombo *)

(** X15: [setFilter] never uses the default filter: for every filter
    string, the empty one too, the filters it stores are those of
    [fromFilterString] of that string, the entries it adds to the cleared
    widget are their labels in order, and the MIME flags are off. *)
Theorem setFilter_ignores_default {Q : Type} `{KFileFilterCombo.QComboBox Q}
    (comment : list ascii -> list ascii) (filterString : list ascii) (q : Q)
    (d : KFileFilterCombo.KFileFilterComboPrivate) :
  KFileFilterCombo.m_filters (KFileFilterCombo.setFilter comment filterString q d).2 =
    KFileFilter.fromFilterString comment filterString /\
  (KFileFilterCombo.setFilter comment filterString q d).1 =
    fold_left (fun q' filter => KFileFilterCombo.addItem (KFileFilter.m_label filter) q')
      (KFileFilter.fromFilterString comment filterString) (KFileFilterCombo.clear q) /\
  KFileFilterCombo.m_isMimeFilter (KFileFilterCombo.setFilter comment filterString q d).2
    = false /\
  KFileFilterCombo.m_hasAllSupportedFiles
    (KFileFilterCombo.setFilter comment filterString q d).2 = false /\
  KFileFilterCombo.m_defaultFilter (KFileFilterCombo.setFilter comment filterString q d).2
    = KFileFilterCombo.m_defaultFilter d.
Proof.
  unfold KFileFilterCombo.setFilter. simpl.
  pose proof (fromFilterString_not_nil comment filterString) as Hne.
  destruct (KFileFilter.fromFilterString comment filterString); [contradiction|].
  simpl. repeat split; reflexivity.
Qed.

(** X16: for an entry that the user did not edit and that stands for a
    pattern filter whose patterns contain no '|', with the MIME flags off,
    [currentFilter] is the patterns joined by spaces: the label is cut
    off. *)
Theorem currentFilter_patterns {Q : Type} `{KFileFilterCombo.QComboBox Q} (q : Q)
    (d : KFileFilterCombo.KFileFilterComboPrivate) (f : KFileFilter.KFileFilter) :
  KFileFilterCombo.m_isMimeFilter d = false ->
  KFileFilterCombo.m_hasAllSupportedFiles d = false ->
  KFileFilterCombo.currentText q =
    KFileFilterCombo.itemText (KFileFilterCombo.currentIndex q) q ->
  0 <= KFileFilterCombo.currentIndex q ->
  KFileFilterCombo.m_filters d !! Z.to_nat (KFileFilterCombo.currentIndex q) = Some f ->
  KFileFilter.m_mimePatterns f = [] ->
  Forall (fun pattern => "|"%char ∉ pattern) (KFileFilter.m_filePatterns f) ->
  KFileFilterCombo.currentFilter q d = KFileFilter.join " " (KFileFilter.m_filePatterns f).
Proof.
  intros Hmime Hall Htext Hidx Hf Hm Hbar.
  unfold KFileFilterCombo.currentFilter.
  rewrite Hmime, Hall, andb_false_r, andb_false_r. simpl.
  rewrite bool_decide_eq_true_2 by exact Htext.
  assert (Hv : KFileFilterCombo.value (KFileFilterCombo.currentIndex q)
                 (KFileFilterCombo.m_filters d) = f).
  { unfold KFileFilterCombo.value.
    pose proof (lookup_lt_Some _ _ _ Hf) as Hlt.
    destruct (Z.leb_spec 0 (KFileFilterCombo.currentIndex q)) as [_|]; [|lia].
    destruct (Z.ltb_spec (KFileFilterCombo.currentIndex q)
                (Z.of_nat (length (KFileFilterCombo.m_filters d)))) as [_|]; [|lia].
    simpl. apply nth_lookup_Some with (d := KFileFilter.KFileFilter_0) in Hf. exact Hf. }
  rewrite Hv. clear Hv.
  assert (Hj : "|"%char ∉ KFileFilter.join " " (KFileFilter.m_filePatterns f)).
  { intros Hin. apply elem_of_join in Hin as [Heq|(p & Hp & Hc)]; [discriminate|].
    rewrite Forall_forall in Hbar. exact (Hbar p (proj2 (list_elem_of_In _ _) Hp) Hc). }
  unfold KFileFilter.toFilterString. rewrite Hm. simpl.
  destruct (KFileFilter.isEmpty (KFileFilter.m_label f)); simpl.
  - rewrite (indexOf_absent _ _ Hj). reflexivity.
  - rewrite (indexOf_here _ _ _ Hj).
    destruct (Z.ltb_spec (Z.of_nat (length (KFileFilter.join " " (KFileFilter.m_filePatterns f)))) 0);
      [lia|].
    unfold KFileFilter.left.
    destruct (Z.ltb_spec (Z.of_nat (length (KFileFilter.join " " (KFileFilter.m_filePatterns f)))) 0);
      [lia|].
    rewrite Nat2Z.id. apply take_app_length.
Qed.

Lemma find_if_spec (filterString : list ascii) (l : list KFileFilter.KFileFilter) :
  match KFileFilterCombo.find_if filterString l with
  | Some i =>
      (exists f, l !! i = Some f /\ KFileFilter.toFilterString f = filterString) /\
      Forall (fun g => KFileFilter.toFilterString g <> filterString) (take i l)
  | None => Forall (fun g => KFileFilter.toFilterString g <> filterString) l
  end.
Proof.
  induction l as [|g rest IH]; simpl; [constructor|].
  destruct (decide (filterString = KFileFilter.toFilterString g)) as [Heq|Hne].
  - rewrite bool_decide_eq_true_2 by exact Heq. simpl.
    split; [exists g; split; [reflexivity | symmetry; exact Heq] | constructor].
  - rewrite bool_decide_eq_false_2 by exact Hne.
    destruct (KFileFilterCombo.find_if filterString rest) as [i|]; simpl.
    + destruct IH as [Hf Hbefore]. split; [exact Hf|].
      constructor; [congruence | exact Hbefore].
    + constructor; [congruence | exact IH].
Qed.

(** X17: [setCurrentFilter] selects the first entry whose filter has the
    given filter string, and the index -1 when no filter has it; the filters
    stay as they were and the remembered text is the text the widget then
    shows. *)
Theorem setCurrentFilter_selects {Q : Type} `{KFileFilterCombo.QComboBox Q}
    (filterString : list ascii) (q : Q) (d : KFileFilterCombo.KFileFilterComboPrivate) :
  exists i : Z,
    (KFileFilterCombo.setCurrentFilter filterString q d).1
      = KFileFilterCombo.setCurrentIndex i q /\
    KFileFilterCombo.m_lastFilter (KFileFilterCombo.setCurrentFilter filterString q d).2
      = KFileFilterCombo.currentText (KFileFilterCombo.setCurrentIndex i q) /\
    KFileFilterCombo.m_filters (KFileFilterCombo.setCurrentFilter filterString q d).2
      = KFileFilterCombo.m_filters d /\
    (i = -1 /\
     Forall (fun g => KFileFilter.toFilterString g <> filterString)
       (KFileFilterCombo.m_filters d)
     \/
     0 <= i /\
     (exists f, KFileFilterCombo.m_filters d !! Z.to_nat i = Some f /\
                KFileFilter.toFilterString f = filterString) /\
     Forall (fun g => KFileFilter.toFilterString g <> filterString)
       (take (Z.to_nat i) (KFileFilterCombo.m_filters d))).
Proof.
  unfold KFileFilterCombo.setCurrentFilter.
  pose proof (find_if_spec filterString (KFileFilterCombo.m_filters d)) as Hspec.
  destruct (KFileFilterCombo.find_if filterString (KFileFilterCombo.m_filters d)) as [i|].
  - exists (Z.of_nat i). simpl. repeat split; try reflexivity.
    right. rewrite Nat2Z.id. split; [lia | exact Hspec].
  - exists (-1). simpl. repeat split; try reflexivity.
    left. split; [reflexivity | exact Hspec].
Qed.

(** ** Runs of the round trips *)

Ltac decide_it :=
  match goal with
  | |- ?P => exact (bool_decide_unpack P ltac:(vm_compute; exact I))
  end.

Lemma pattern_filters_round_trip_witness :
  [KFileFilter.mkKFileFilter (list_ascii_of_string "Sources")
     [list_ascii_of_string "*.cpp"; list_ascii_of_string "*.h"] []] <> [] /\
  Forall writable
    [KFileFilter.mkKFileFilter (list_ascii_of_string "Sources")
       [list_ascii_of_string "*.cpp"; list_ascii_of_string "*.h"] []] /\
  KFileFilter.fromFilterString sample_comment (list_ascii_of_string "*.cpp *.h|Sources") =
  [KFileFilter.mkKFileFilter (list_ascii_of_string "Sources")
     [list_ascii_of_string "*.cpp"; list_ascii_of_string "*.h"] []].
Proof.
  assert (Hw : Forall writable
            [KFileFilter.mkKFileFilter (list_ascii_of_string "Sources")
               [list_ascii_of_string "*.cpp"; list_ascii_of_string "*.h"] []]).
  { constructor; [|constructor].
    unfold writable; simpl.
    split; [reflexivity|]. split; [discriminate|]. split; [discriminate|].
    split; [decide_it|]. split; [decide_it|].
    repeat constructor; decide_it. }
  assert (Hne : [KFileFilter.mkKFileFilter (list_ascii_of_string "Sources")
                   [list_ascii_of_string "*.cpp"; list_ascii_of_string "*.h"] []] <> [])
    by discriminate.
  split; [exact Hne|]. split; [exact Hw|].
  exact (pattern_filters_round_trip sample_comment _ Hne Hw).
Defined.

Lemma mime_filters_round_trip_witness :
  0 < KFileFilter.indexOf "/" (list_ascii_of_string "text/plain") /\
  KFileFilter.at_ (list_ascii_of_string "text/plain")
    (KFileFilter.indexOf "/" (list_ascii_of_string "text/plain") - 1) <> "\"%char /\
  KFileFilter.fromFilterString sample_comment (list_ascii_of_string "text/plain image/png") =
  [KFileFilter.KFileFilter_1 sample_comment (list_ascii_of_string "text/plain");
   KFileFilter.KFileFilter_1 sample_comment (list_ascii_of_string "image/png")].
Proof.
  assert (Hpos : 0 < KFileFilter.indexOf "/" (list_ascii_of_string "text/plain"))
    by (vm_compute; reflexivity).
  assert (Hesc : KFileFilter.at_ (list_ascii_of_string "text/plain")
                   (KFileFilter.indexOf "/" (list_ascii_of_string "text/plain") - 1)
                 <> "\"%char) by (vm_compute; discriminate).
  split; [exact Hpos|]. split; [exact Hesc|].
  refine (proj1 (mime_filters_round_trip sample_comment
                   (list_ascii_of_string "text/plain")
                   [list_ascii_of_string "image/png"] Hpos Hesc _)).
  repeat constructor; try discriminate; decide_it.
Defined.

Lemma currentFilter_patterns_witness :
  KFileFilterCombo.currentText (QComboBox := sample_combo_ops) sample_combo =
    KFileFilterCombo.itemText (QComboBox := sample_combo_ops)
      (KFileFilterCombo.currentIndex (QComboBox := sample_combo_ops) sample_combo) sample_combo /\
  KFileFilterCombo.m_filters sample_private !! 0%nat = Some sample_filter /\
  KFileFilterCombo.currentFilter (H := sample_combo_ops) sample_combo sample_private
  = list_ascii_of_string "*.cpp *.h".
Proof.
  split; [reflexivity|]. split; [reflexivity|].
  refine (currentFilter_patterns (H := sample_combo_ops) sample_combo sample_private
            sample_filter eq_refl eq_refl eq_refl _ eq_refl eq_refl _).
  - simpl. lia.
  - repeat constructor; decide_it.
Defined.
